(** * nsc: trust-chain, permission and revocation engine

    A shallow embedding of the command layer of nsc (package [cmd]):
    [create account], [add account], [add user] with its permission and
    response-permission edits, and the revocation list of an export;
    together with the properties the specification states about them.

    Conventions.
    - Go's [error] values are the constructors of one type [error] for the
      package; a function returning [(T, error)] returns a [result].
    - Code that reads and writes the store, the key ring or the file system
      is written in a small state-and-error monad over an explicit world.
    - Maps ([map[string]int64], the directory of signed claims) are stdpp
      [gmap]s; Go slices are lists.
    - Library calls whose code is outside the repository ([time.ParseDuration],
      [filepath.Join], [nkeys.CreateAccount], ...) are taken as parameters. *)

From Stdlib Require Import ZArith List String Ascii Sorted Permutation Lia Bool.
From stdpp Require Import gmap strings list fin_maps.

Local Open Scope string_scope.
Local Open Scope Z_scope.
Local Open Scope list_scope.

(** ** Results and the state-and-error monad *)

Inductive result (E A : Type) : Type :=
| Ok (a : A)
| Err (e : E).
Arguments Ok {E A} a.
Arguments Err {E A} e.

Definition is_err {E A} (r : result E A) : bool :=
  match r with Ok _ => false | Err _ => true end.

(** A computation over a world [S] that may stop with an error [E].  The
    world is threaded through also on failure: what was written before the
    error stays written. *)
Definition M (S E A : Type) : Type := S -> result E A * S.

Definition ret {S E A} (a : A) : M S E A := fun s => (Ok a, s).
Definition fail {S E A} (e : E) : M S E A := fun s => (Err e, s).
Definition bind {S E A B} (c : M S E A) (k : A -> M S E B) : M S E B :=
  fun s => match c s with
           | (Ok a, s') => k a s'
           | (Err e, s') => (Err e, s')
           end.
Definition modify {S E} (f : S -> S) : M S E unit := fun s => (Ok tt, f s).
Definition lift {S E A} (r : result E A) : M S E A := fun s => (r, s).

Notation "x <~ c ; k" := (bind c (fun x => k))
  (at level 20, c at level 100, k at level 200, only parsing).
Notation "'run' c ; k" := (bind c (fun _ => k))
  (at level 20, c at level 100, k at level 200, only parsing).

(** ** time.Time *)

Module Time.

(** An instant: whole seconds since the epoch and the nanoseconds within
    the second. *)
Record t : Type := mk { sec : Z; nsec : Z }.

(** [time.Unix(sec, nsec)]: nanoseconds outside [0, 1e9) carry into the
    seconds. *)
Definition Unix (s n : Z) : t :=
  {| sec := s + n / 1000000000; nsec := n mod 1000000000 |}.

(** [t.Unix()]: the seconds since the epoch. *)
Definition unix (x : t) : Z := sec x.

End Time.

(** ** RevocationList *)

Module RevocationList.

(** Modelled from the spec: the revocation list of an export and its
    operations [Revoke], [IsRevokedAt] and [Clear] belong to the jwt claim
    package, whose code is not among the files of package [cmd]; section 4.3
    of the specification is followed word for word.  The list maps a target
    public key, or the wildcard, to a cutoff in epoch seconds. *)
Definition All : string := "*".

(** Modelled from the spec: [Revoke(target, at)] sets
    [revocations[target] = at.Unix()]; when [at] is not given the cutoff is
    the wall-clock time [now] read at the call. *)
Definition Revoke (r : gmap string Z) (target : string)
           (at_ : option Time.t) (now : Time.t) : gmap string Z :=
  <[target := Time.unix (default now at_)]> r.

(** The entry [e], if there is one, covers the issue time. *)
Definition covers (e : option Z) (issuedAt : Time.t) : bool :=
  match e with
  | Some cutoff => Time.unix issuedAt <=? cutoff
  | None => false
  end.

(** Modelled from the spec: [IsRevokedAt(target, issuedAt)] is true iff an
    entry exists for [target] or for the wildcard with
    [issuedAt.Unix() <= cutoff] for that entry: an OR across both. *)
Definition IsRevokedAt (r : gmap string Z) (target : string)
           (issuedAt : Time.t) : bool :=
  covers (r !! target) issuedAt || covers (r !! All) issuedAt.

(** Modelled from the spec: [Clear(target)] removes one entry; clearing an
    absent target is a no-op. *)
Definition Clear (r : gmap string Z) (target : string) : gmap string Z :=
  delete target r.

End RevocationList.

(** ** StringList and sort.Strings *)

Module StringList.

(** [u.Contains(p)]. *)
Definition Contains (u : list string) (p : string) : bool :=
  existsb (String.eqb p) u.

(** Modelled from the spec: [StringList.Add] belongs to the jwt claim
    package, whose code is not among the files of package [cmd].  Section
    4.2: adding
    is idempotent, re-adding an existing pattern is a no-op, and pattern
    strings are accepted without validation.  Each value not yet in the list
    is appended at its end, in argument order. *)
Definition Add (u : list string) (ps : list string) : list string :=
  fold_left (fun acc v => if Contains acc v then acc else acc ++ [v]) ps u.

End StringList.

Module sort.

(** Go compares strings byte by byte; [String.leb] is that order. *)
Fixpoint insert (s : string) (l : list string) : list string :=
  match l with
  | [] => [s]
  | x :: r => if String.leb s x then s :: l else x :: insert s r
  end.

(** [sort.Strings(l)]: [l] in increasing order.  Equal strings cannot be
    told apart, so every sorting algorithm returns this list. *)
Definition Strings (l : list string) : list string :=
  fold_right insert [] l.

(** The check [sort.StringsAreSorted]. *)
Fixpoint StringsAreSorted (l : list string) : bool :=
  match l with
  | x :: (y :: _) as r => String.leb x y && StringsAreSorted r
  | _ => true
  end.

End sort.

(** ** Errors of package cmd *)

(** The errors the commands build, one constructor per message, and
    [External] for an error handed up unchanged from a library or from the
    operating system. *)
Inductive error : Type :=
| External (what : string)
| ErrNotAccountKey                     (* private key is not an account private key *)
| ErrSpecifyOneOf                      (* specify one of --public-key or --generate-nkeys *)
| ErrAccountExists (name : string)     (* account %q already exists *)
| ErrGettingContext (e : error)        (* error getting context: %v *)
| ErrOperatorKey                       (* specify the operator private key with --private-key ... *)
| ErrGeneratingAccountKey (e : error)  (* error generating an account key: %v *)
| ErrResolvingAccountKey (e : error)   (* error resolving account key: %v *)
| ErrCreatingDirectory (dir : string) (e : error)
| ErrStoringKeyfile (file : string) (e : error)
| ErrCast                              (* unable to cast to user claim *).

(** ** nkeys *)

Module nkeys.

Inductive PrefixByte : Type :=
| PrefixByteOperator | PrefixByteAccount | PrefixByteUser
| PrefixByteCluster | PrefixByteServer.

(** A key pair as the commands see it: what its methods [PublicKey()] and
    [Seed()] return. *)
Record KeyPair : Type := mkKeyPair {
  PublicKey : result error string;
  Seed : result error string
}.

End nkeys.

(** ** store.Report *)

Module store.

(** The lines of a report, by format string. *)
Inductive Message : Type :=
| MsgRemovedResponsePerms                          (* removed response permissions *)
| MsgSetMaxResponses (n : Z)                       (* set max responses to %d *)
| MsgSetResponseTTL (v : Z)                        (* set response ttl to %v *)
| MsgGeneratedUserKey (pk : string)                (* generated and stored user key %q *)
| MsgUnableToSaveCreds (e : error)                 (* unable to save creds: %v *)
| MsgErrorStoringCreds (e : error)                 (* error storing creds: %v *)
| MsgGeneratedCredsFile (path : string)            (* generated user creds file %q *)
| MsgSkippedCredsFile                              (* skipped generating creds file - ... *)
| MsgAddedUser (name account : string)             (* added user %q to account %q *)
| MsgFromError (e : error).                        (* r.AddFromError(err) *)

(** [store.Status]: an OK line, an error line, or a report with its own
    details. *)
#[warnings="-register-all"]
Inductive Status : Type :=
| StOK (m : Message)
| StErr (m : Message)
| StReport (opt : bool) (details : list Status).

(** [*store.Report]. *)
Record Report : Type := mkReport { Opt : bool; Details : list Status }.

Definition NewDetailedReport (opt : bool) : Report :=
  {| Opt := opt; Details := [] |}.

(** A report handed on as a [store.Status]. *)
Definition AsStatus (r : Report) : Status := StReport (Opt r) (Details r).

Definition Add (r : Report) (s : Status) : Report :=
  {| Opt := Opt r; Details := Details r ++ [s] |}.
Definition AddOK (r : Report) (m : Message) : Report := Add r (StOK m).
Definition AddError (r : Report) (m : Message) : Report := Add r (StErr m).
Definition AddFromError (r : Report) (e : error) : Report :=
  Add r (StErr (MsgFromError e)).

(** No error line, at any depth. *)
Fixpoint StatusOK (s : Status) : bool :=
  match s with
  | StOK _ => true
  | StErr _ => false
  | StReport _ ds => forallb StatusOK ds
  end.

Definition HasNoErrors (r : Report) : bool := forallb StatusOK (Details r).

End store.

(** ** jwt claims, as far as the commands touch them *)

Module jwt.

Module ResponsePermission.
Record t : Type := mk { MaxMsgs : Z; Expires : Z }.
(** [&jwt.ResponsePermission{}] *)
Definition zero : t := {| MaxMsgs := 0; Expires := 0 |}.
End ResponsePermission.

Record Permission : Type := mkPermission {
  Allow : list string;
  Deny : list string
}.

Record Permissions : Type := mkPermissions {
  Pub : Permission;
  Sub : Permission;
  Resp : option ResponsePermission.t
}.

Record UserClaims : Type := mkUserClaims {
  NotBefore : Z;
  Expires : Z;
  Perms : Permissions;
  Tags : list string
}.

(** What an [interface{}] handed to an edit function may hold. *)
Inductive Claims : Type :=
| User (uc : UserClaims)
| Other.

(** Assignments to single fields. *)
Definition setAllow (f : list string -> list string) (p : Permission) :=
  {| Allow := f (Allow p); Deny := Deny p |}.
Definition setDeny (f : list string -> list string) (p : Permission) :=
  {| Allow := Allow p; Deny := f (Deny p) |}.
Definition setPerms (f : Permissions -> Permissions) (uc : UserClaims) :=
  {| NotBefore := NotBefore uc; Expires := Expires uc;
     Perms := f (Perms uc); Tags := Tags uc |}.
Definition setPub (f : Permission -> Permission) (uc : UserClaims) :=
  setPerms (fun ps => {| Pub := f (Pub ps); Sub := Sub ps; Resp := Resp ps |}) uc.
Definition setSub (f : Permission -> Permission) (uc : UserClaims) :=
  setPerms (fun ps => {| Pub := Pub ps; Sub := f (Sub ps); Resp := Resp ps |}) uc.
Definition setResp (f : option ResponsePermission.t -> option ResponsePermission.t)
           (uc : UserClaims) :=
  setPerms (fun ps => {| Pub := Pub ps; Sub := Sub ps; Resp := f (Resp ps) |}) uc.
Definition setNotBefore (v : Z) (uc : UserClaims) :=
  {| NotBefore := v; Expires := Expires uc; Perms := Perms uc; Tags := Tags uc |}.
Definition setExpires (v : Z) (uc : UserClaims) :=
  {| NotBefore := NotBefore uc; Expires := v; Perms := Perms uc; Tags := Tags uc |}.
Definition setTags (f : list string -> list string) (uc : UserClaims) :=
  {| NotBefore := NotBefore uc; Expires := Expires uc; Perms := Perms uc;
     Tags := f (Tags uc) |}.

End jwt.

(** ** add user: permission and response-permission edits *)

(** What the command context answers: whether the (deprecated) flag
    [--max-responses] was given on the command line,
    [ctx.CurrentCmd().Flag("max-responses").Changed]. *)
Record ActionCtx : Type := mkActionCtx {
  max_responses_Changed : bool
}.

(** [TimeParams], by what its methods answer; their errors are dropped by
    the caller. *)
Record TimeParams : Type := mkTimeParams {
  IsStartChanged : bool;
  StartDate : Z;
  IsExpiryChanged : bool;
  ExpiryDate : Z
}.

(** Library calls of the add-user command. *)
Class Library : Type := {
  (** [time.ParseDuration] *)
  ParseDuration : string -> result error Z;
  (** [TagList.Add] of the jwt package *)
  TagListAdd : list string -> list string -> list string
}.

Module ResponsePermsParams.
Section WithLibrary.
Context {lib : Library}.

Record t : Type := mk {
  respTTL : string;
  respMax : Z;
  rmResp : bool
}.

Definition parseTTL (s : string) : result error Z :=
  if String.eqb s "" then Ok 0 else ParseDuration s.

Definition ttlValidator (s : string) : option error :=
  match parseTTL s with
  | Ok _ => None
  | Err e => Some e
  end.

Definition Validate (p : t) : option error :=
  match ttlValidator (respTTL p) with
  | Some err => Some err
  | None => None
  end.

(** [uc.Resp = &jwt.ResponsePermission{}] when [uc.Resp == nil]. *)
Definition allocResp (o : option jwt.ResponsePermission.t) :=
  match o with
  | None => Some jwt.ResponsePermission.zero
  | Some _ => o
  end.

Definition setMaxMsgs (v : Z) (o : option jwt.ResponsePermission.t) :=
  match o with
  | Some rp => Some {| jwt.ResponsePermission.MaxMsgs := v;
                       jwt.ResponsePermission.Expires :=
                         jwt.ResponsePermission.Expires rp |}
  | None => None
  end.

Definition setExpires (v : Z) (o : option jwt.ResponsePermission.t) :=
  match o with
  | Some rp => Some {| jwt.ResponsePermission.MaxMsgs :=
                         jwt.ResponsePermission.MaxMsgs rp;
                       jwt.ResponsePermission.Expires := v |}
  | None => None
  end.

(** [Run] edits the claim in place: a computation over the claim. *)
Definition Run (p : t) (ctx : ActionCtx) : M jwt.UserClaims error store.Report :=
  let r := store.NewDetailedReport true in
  if rmResp p then
    run modify (jwt.setResp (fun _ => None)) ;
    ret (store.AddOK r store.MsgRemovedResponsePerms)
  else
    r <~ (if max_responses_Changed ctx || negb (respMax p =? 0) then
            run modify (jwt.setResp allocResp) ;
            run modify (jwt.setResp (setMaxMsgs (respMax p))) ;
            ret (store.AddOK r (store.MsgSetMaxResponses (respMax p)))
          else ret r) ;
    if negb (String.eqb (respTTL p) "") then
      v <~ lift (parseTTL (respTTL p)) ;
      run modify (jwt.setResp allocResp) ;
      run modify (jwt.setResp (setExpires v)) ;
      ret (store.AddOK r (store.MsgSetResponseTTL v))
    else ret r.

End WithLibrary.
End ResponsePermsParams.

Module AddUserParams.
Section WithLibrary.
Context {lib : Library}.

(** The fields of [AddUserParams] the claim edit reads. *)
Record t : Type := mk {
  time : TimeParams;
  resp : ResponsePermsParams.t;
  allowPubs : list string;
  allowPubsub : list string;
  allowSubs : list string;
  denyPubs : list string;
  denyPubsub : list string;
  denySubs : list string;
  src : list string;
  tags : list string
}.

Definition when {S E} (b : bool) (c : M S E unit) : M S E unit :=
  if b then c else ret tt.

(** The body of [editUserClaim] once the cast has succeeded. *)
Definition editUser (p : t) (ctx : ActionCtx) : M jwt.UserClaims error unit :=
  run when (IsStartChanged (time p)) (modify (jwt.setNotBefore (StartDate (time p)))) ;
  run when (IsExpiryChanged (time p)) (modify (jwt.setExpires (ExpiryDate (time p)))) ;
  _ <~ ResponsePermsParams.Run (resp p) ctx ;

  run modify (jwt.setPub (jwt.setAllow (fun l => StringList.Add l (allowPubs p)))) ;
  run modify (jwt.setPub (jwt.setAllow (fun l => StringList.Add l (allowPubsub p)))) ;
  run modify (jwt.setPub (jwt.setAllow sort.Strings)) ;

  run modify (jwt.setPub (jwt.setDeny (fun l => StringList.Add l (denyPubs p)))) ;
  run modify (jwt.setPub (jwt.setDeny (fun l => StringList.Add l (denyPubsub p)))) ;
  run modify (jwt.setPub (jwt.setDeny sort.Strings)) ;

  run modify (jwt.setSub (jwt.setAllow (fun l => StringList.Add l (allowSubs p)))) ;
  run modify (jwt.setSub (jwt.setAllow (fun l => StringList.Add l (allowPubsub p)))) ;
  run modify (jwt.setSub (jwt.setAllow sort.Strings)) ;

  run modify (jwt.setSub (jwt.setDeny (fun l => StringList.Add l (denySubs p)))) ;
  run modify (jwt.setSub (jwt.setDeny (fun l => StringList.Add l (denyPubsub p)))) ;
  run modify (jwt.setSub (jwt.setDeny sort.Strings)) ;

  run modify (jwt.setTags (fun l => TagListAdd l (tags p))) ;
  run modify (jwt.setTags sort.Strings) ;
  ret tt.

(** [editUserClaim(c, ctx)]: the error, if any, and the claim as the edit
    leaves it. *)
Definition editUserClaim (p : t) (c : jwt.Claims) (ctx : ActionCtx)
  : result error unit * jwt.Claims :=
  match c with
  | jwt.User uc =>
      let (r, uc') := editUser p ctx uc in (r, jwt.User uc')
  | jwt.Other => (Err ErrCast, c)
  end.

(** The invocation that gives every pattern of [--allow-pubsub] to both
    [--allow-pub] and [--allow-sub] instead, and likewise for the deny
    flags; a flag given more than once appends to its list. *)
Definition splitPubsub (p : t) : t :=
  {| time := time p; resp := resp p;
     allowPubs := allowPubs p ++ allowPubsub p;
     allowPubsub := [];
     allowSubs := allowSubs p ++ allowPubsub p;
     denyPubs := denyPubs p ++ denyPubsub p;
     denyPubsub := [];
     denySubs := denySubs p ++ denyPubsub p;
     src := src p; tags := tags p |}.

End WithLibrary.
End AddUserParams.

(** ** add user: running the command *)

Module AddUser.

(** [Entity], as far as [Run] reads it. *)
Record Entity : Type := mkEntity {
  name : string;
  kp : nkeys.KeyPair;
  generated : bool
}.

(** The claim store and the key ring the command works on, and the calls
    into them.  [Entity.StoreKeys], [Entity.GenerateClaim], [GenerateConfig]
    and the key-store methods are code of other files of the package; they
    are taken as they are declared: which part of the world each may change
    is read off its receiver and arguments. *)
Class Env : Type := {
  Store : Type;
  KeyStore : Type;
  (** [p.Entity.StoreKeys(parent)] *)
  StoreKeys : Entity -> string -> Store * KeyStore -> option error * (Store * KeyStore);
  (** [p.Entity.GenerateClaim(signer, ctx)]: edits, signs and stores the
      claim; answers a status, an error, both or neither. *)
  GenerateClaim : Entity -> nkeys.KeyPair -> ActionCtx -> Store * KeyStore ->
                  (option store.Status * option error) * (Store * KeyStore);
  (** [ks.HasPrivateKey(pk)] *)
  HasPrivateKey : KeyStore -> string -> bool;
  (** [GenerateConfig(store, account, user, kp)] *)
  GenerateConfig : Store -> string -> string -> nkeys.KeyPair -> result error string;
  (** [ks.MaybeStoreUserCreds(account, user, data)]: the path and the error *)
  MaybeStoreUserCreds : string -> string -> string -> KeyStore ->
                        (string * option error) * KeyStore;
  (** [AbbrevHomePaths] *)
  AbbrevHomePaths : string -> string
}.

Section WithEnv.
Context {env : Env}.

(** The fields of [AddUserParams] that [Run] reads or writes. *)
Record Params : Type := mkParams {
  accountName : string;           (* p.AccountContextParams.Name *)
  signerKP : nkeys.KeyPair;       (* p.signerKP *)
  entity : Entity;                (* p.Entity *)
  credsFilePath : string
}.

Definition setCredsFilePath (v : string) (p : Params) : Params :=
  {| accountName := accountName p; signerKP := signerKP p;
     entity := entity p; credsFilePath := v |}.

(** What [Run] returns, [(store.Status, error)], and what it leaves behind:
    the parameters and the world. *)
Record Outcome : Type := mkOutcome {
  status : option store.Status;
  err : option error;
  params : Params;
  world : Store * KeyStore
}.

(** [r.Add(rs)] under [if rs != nil]. *)
Definition addIfStatus (r : store.Report) (rs : option store.Status) :=
  match rs with
  | Some s => store.Add r s
  | None => r
  end.

(** [pk, _ := p.kp.PublicKey()] *)
Definition publicKeyOf (p : Params) : string :=
  match nkeys.PublicKey (kp (entity p)) with
  | Ok pk => pk
  | Err _ => ""
  end.

(** What goes wrong with the creds file in the world [w], if anything: the
    error line [Run] then reports. *)
Definition credsError (p : Params) (w : Store * KeyStore) : option store.Message :=
  match GenerateConfig (fst w) (accountName p) (name (entity p)) (kp (entity p)) with
  | Err e => Some (store.MsgUnableToSaveCreds e)
  | Ok d =>
    match MaybeStoreUserCreds (accountName p) (name (entity p)) d (snd w) with
    | ((_, Some e), _) => Some (store.MsgErrorStoringCreds e)
    | ((_, None), _) => None
    end
  end.

Definition Run (p : Params) (ctx : ActionCtx) (w : Store * KeyStore) : Outcome :=
  match StoreKeys (entity p) (accountName p) w with
  | (Some e, w1) => mkOutcome None (Some e) p w1
  | (None, w1) =>
    let r := store.NewDetailedReport false in
    let '((rs, e), w2) := GenerateClaim (entity p) (signerKP p) ctx w1 in
    let r := addIfStatus r rs in
    let r := match e with Some e => store.AddFromError r e | None => r end in
    let r := addIfStatus r rs in
    let pk := publicKeyOf p in
    let r := if generated (entity p)
             then store.AddOK r (store.MsgGeneratedUserKey pk) else r in
    (* if they gave us a seed, it stored - try to get it *)
    let ks := snd w2 in
    let '(r, p3, w3) :=
      if HasPrivateKey ks pk then
        match GenerateConfig (fst w2) (accountName p) (name (entity p)) (kp (entity p)) with
        | Err e => (store.AddError r (store.MsgUnableToSaveCreds e), p, w2)
        | Ok d =>
          let '((path, e), ks') :=
            MaybeStoreUserCreds (accountName p) (name (entity p)) d ks in
          let p' := setCredsFilePath path p in
          match e with
          | Some e => (store.AddError r (store.MsgErrorStoringCreds e), p', (fst w2, ks'))
          | None =>
            (store.AddOK r (store.MsgGeneratedCredsFile (AbbrevHomePaths path)),
             p', (fst w2, ks'))
          end
        end
      else (store.AddOK r store.MsgSkippedCredsFile, p, w2) in
    let r := if store.HasNoErrors r
             then store.AddOK r (store.MsgAddedUser (name (entity p)) (accountName p))
             else r in
    mkOutcome (Some (store.AsStatus r)) None p3 w3
  end.

End WithEnv.
End AddUser.

(** ** add account *)

Module AddAccount.

(** The calls that leave the command: into the store, the key ring, the
    key library and the signer.  Each one is recorded when it is made. *)
Inductive Event : Type :=
| EvGetStore
| EvHas (name : string)
| EvGetContext
| EvResolveKey (kind : nkeys.PrefixByte) (keyPath : string)
| EvCreateAccount
| EvEncode
| EvStoreClaim
| EvKeyStoreStore (name : string).

(** The calls that reach the store, resolve or make a key, or sign. *)
Definition isStoreAccess (ev : Event) : bool :=
  match ev with
  | EvGetStore | EvHas _ | EvGetContext | EvStoreClaim => true
  | _ => false
  end.

Definition isKeyResolution (ev : Event) : bool :=
  match ev with
  | EvResolveKey _ _ | EvCreateAccount => true
  | _ => false
  end.

Definition isSigning (ev : Event) : bool :=
  match ev with
  | EvEncode => true
  | _ => false
  end.

Definition isWrite (ev : Event) : bool :=
  match ev with
  | EvStoreClaim | EvKeyStoreStore _ => true
  | _ => false
  end.

(** Modelled from the spec: the store package is not among the files of
    package [cmd].  Sections 4.5 and 6: one record per entity, named by
    entity name; the content is the signed token. *)
Record Store : Type := mkStore {
  InfoName : string;                 (* s.Info.Name *)
  Accounts : gmap string string      (* account name to signed token *)
}.

(** Modelled from the spec: [s.Has(store.Accounts, name)]: there is a record
    under that name. *)
Definition Has (s : Store) (name : string) : bool :=
  bool_decide (is_Some (Accounts s !! name)).

(** The number of claims the store holds under [name]. *)
Definition claimsNamed (s : Store) (name : string) : nat :=
  length (filter (fun kv => kv.1 = name) (map_to_list (Accounts s))).

Record World : Type := mkWorld {
  ngsStore : result error Store;     (* what getStore() finds *)
  keyring : gmap string nkeys.KeyPair;
  trace : list Event
}.

Definition record (ev : Event) (w : World) : World :=
  {| ngsStore := ngsStore w; keyring := keyring w; trace := trace w ++ [ev] |}.
Definition setStore (s : Store) (w : World) : World :=
  {| ngsStore := Ok s; keyring := keyring w; trace := trace w |}.
Definition setKey (path : string) (kp : nkeys.KeyPair) (w : World) : World :=
  {| ngsStore := ngsStore w; keyring := <[path := kp]> (keyring w);
     trace := trace w |}.

Record AccountClaims : Type := mkAccountClaims {
  Name : string;
  Subject : string
}.

(** Library calls and code of the package outside this file. *)
Class Env : Type := {
  (** [store.KeyPathFlag] *)
  KeyPathFlag : string;
  (** the store context and [s.GetContext()] *)
  Context : Type;
  GetContext : Store -> result error Context;
  (** [ctx.ResolveKey(kind, keyPath)] *)
  ResolveKey : Context -> nkeys.PrefixByte -> string -> result error nkeys.KeyPair;
  (** [nkeys.CreateAccount()] *)
  CreateAccount : result error nkeys.KeyPair;
  (** [claims.Encode(kp)]: the signed token *)
  Encode : AccountClaims -> nkeys.KeyPair -> result error string;
  (** the entity name a token decodes to, as [StoreClaim] reads it *)
  ClaimName : string -> result error string;
  (** [ks.Store(root, name, kp)]: the path of the key file *)
  KeyFile : string -> string -> nkeys.KeyPair -> result error string
}.

Section WithEnv.
Context {env : Env}.

Record Params : Type := mkParams {
  operatorKP : option nkeys.KeyPair;
  accountKP : option nkeys.KeyPair;
  accountKeyPath : string;
  generate : bool;
  claims : AccountClaims
}.

Definition setOperatorKP (v : option nkeys.KeyPair) (p : Params) : Params :=
  {| operatorKP := v; accountKP := accountKP p;
     accountKeyPath := accountKeyPath p; generate := generate p;
     claims := claims p |}.
Definition setAccountKP (v : option nkeys.KeyPair) (p : Params) : Params :=
  {| operatorKP := operatorKP p; accountKP := v;
     accountKeyPath := accountKeyPath p; generate := generate p;
     claims := claims p |}.
Definition setAccountKeyPath (v : string) (p : Params) : Params :=
  {| operatorKP := operatorKP p; accountKP := accountKP p;
     accountKeyPath := v; generate := generate p; claims := claims p |}.
Definition setSubject (v : string) (p : Params) : Params :=
  {| operatorKP := operatorKP p; accountKP := accountKP p;
     accountKeyPath := accountKeyPath p; generate := generate p;
     claims := {| Name := Name (claims p); Subject := v |} |}.

(** [fmt.Errorf("...: %v", err)] around a call. *)
Definition wrap {A} (f : error -> error) (r : result error A) : result error A :=
  match r with
  | Ok a => Ok a
  | Err e => Err (f e)
  end.

(** A method call on a nil key pair panics; the process ends. *)
Definition deref (o : option nkeys.KeyPair) : result error nkeys.KeyPair :=
  match o with
  | Some kp => Ok kp
  | None => Err (External "nil pointer dereference")
  end.

Definition getStore : M World error Store :=
  run modify (record EvGetStore) ;
  fun w => (ngsStore w, w).

Definition has (s : Store) (name : string) : M World error bool :=
  run modify (record (EvHas name)) ;
  ret (Has s name).

Definition getContext (s : Store) : M World error Context :=
  run modify (record EvGetContext) ;
  lift (GetContext s).

Definition resolveKey (ctx : Context) (kind : nkeys.PrefixByte) (keyPath : string)
  : M World error nkeys.KeyPair :=
  run modify (record (EvResolveKey kind keyPath)) ;
  lift (ResolveKey ctx kind keyPath).

Definition createAccount : M World error nkeys.KeyPair :=
  run modify (record EvCreateAccount) ;
  lift CreateAccount.

Definition encode (c : AccountClaims) (kp : option nkeys.KeyPair) : M World error string :=
  run modify (record EvEncode) ;
  kp <~ lift (deref kp) ;
  lift (Encode c kp).

(** Modelled from the spec: [s.StoreClaim(token)] puts the token under the
    name of its entity, replacing the record that is there. *)
Definition storeClaim (s : Store) (token : string) : M World error unit :=
  run modify (record EvStoreClaim) ;
  name <~ lift (ClaimName token) ;
  modify (setStore {| InfoName := InfoName s;
                      Accounts := <[name := token]> (Accounts s) |}).

(** [store.NewKeyStore().Store(root, name, kp)] *)
Definition keyStoreStore (root name : string) (kp : option nkeys.KeyPair)
  : M World error string :=
  run modify (record (EvKeyStoreStore name)) ;
  kp <~ lift (deref kp) ;
  path <~ lift (KeyFile root name kp) ;
  run modify (setKey path kp) ;
  ret path.

(** [Validate] fills in the two key pairs: it answers the parameters as it
    leaves them. *)
Definition Validate (p : Params) : M World error Params :=
  s <~ getStore ;
  if negb (String.eqb (accountKeyPath p) "") && generate p then
    fail ErrSpecifyOneOf
  else
  exists_ <~ has s (Name (claims p)) ;
  if (exists_ : bool) then
    fail (ErrAccountExists (Name (claims p)))
  else
  ctx <~ (fun w => let (r, w') := getContext s w in (wrap ErrGettingContext r, w')) ;
  okp <~ (fun w => let (r, w') := resolveKey ctx nkeys.PrefixByteOperator KeyPathFlag w in
                   (wrap (fun _ => ErrOperatorKey) r, w')) ;
  let p := setOperatorKP (Some okp) p in
  if generate p then
    akp <~ (fun w => let (r, w') := createAccount w in
                     (wrap ErrGeneratingAccountKey r, w')) ;
    ret (setAccountKP (Some akp) p)
  else
    akp <~ (fun w => let (r, w') :=
                       resolveKey ctx nkeys.PrefixByteAccount (accountKeyPath p) w in
                     (wrap ErrResolvingAccountKey r, w')) ;
    ret (setAccountKP (Some akp) p).

Definition Run (p : Params) : M World error Params :=
  akp <~ lift (deref (accountKP p)) ;
  pkd <~ lift (nkeys.PublicKey akp) ;
  let p := setSubject pkd p in
  token <~ encode (claims p) (operatorKP p) ;
  s <~ getStore ;
  run storeClaim s token ;
  if generate p then
    path <~ keyStoreStore (InfoName s) (Name (claims p)) (accountKP p) ;
    ret (setAccountKeyPath path p)
  else ret p.

(** What the command prints on success. *)
Inductive Output : Type :=
| GeneratedAccountKey (path : string)
| AddedAccount (name : string).

(** The [RunE] of [createAddAccountCmd]. *)
Definition RunE (params : Params) : M World error Output :=
  params <~ Validate params ;
  params <~ Run params ;
  if generate params then ret (GeneratedAccountKey (accountKeyPath params))
  else ret (AddedAccount (Name (claims params))).

End WithEnv.
End AddAccount.

(** ** create account *)

Module CreateAccount.

(** What the command leaves on disk: directories, key files, and the
    account stores it has created (directory to name and key pair). *)
Record World : Type := mkWorld {
  dirs : gset string;
  files : gmap string string;
  stores : gmap string (string * option nkeys.KeyPair)
}.

(** The process environment and the library calls. *)
Class Env : Type := {
  (** [os.Getwd()] *)
  Getwd : result error string;
  (** [filepath.IsAbs], [filepath.Join], [filepath.Base] *)
  IsAbs : string -> bool;
  Join : string -> string -> string;
  Base : string -> string;
  (** the flag [--private-key] and [ResolveKeyFlag()], which loads it *)
  KeyPathFlag : string;
  ResolveKeyFlag : result error nkeys.KeyPair;
  (** [nkeys.CreateAccount()] *)
  CreateAccount : result error nkeys.KeyPair;
  (** [nkeys.IsValidPublicAccountKey]: the role prefix of the public key is
      the account prefix *)
  IsValidPublicAccountKey : string -> bool;
  (** [GetKeysDir()] *)
  GetKeysDir : string;
  (** the ancestors of a path: the directories [os.MkdirAll] makes on its
      way to the path, where they are missing *)
  Ancestors : string -> gset string;
  (** whether [os.MkdirAll] of a path fails: the error, and the ancestors it
      had made before it failed *)
  MkdirAllFails : string -> option (error * gset string);
  (** whether [ioutil.WriteFile] of the data to a path fails: the error, and
      what the call left in the file: nothing when the file could not be
      opened ([None]), else what was written after the file had been created
      or truncated *)
  WriteFileFails : string -> string -> option (error * option string);
  (** whether [store.CreateStore] fails *)
  CreateStoreFails : string -> string -> option nkeys.KeyPair -> option error
}.

Section WithEnv.
Context {env : Env}.

Record Params : Type := mkParams {
  name : string;
  dir : string;
  kp : option nkeys.KeyPair;
  keyFile : string
}.

Definition setName (v : string) (p : Params) : Params :=
  {| name := v; dir := dir p; kp := kp p; keyFile := keyFile p |}.
Definition setDir (v : string) (p : Params) : Params :=
  {| name := name p; dir := v; kp := kp p; keyFile := keyFile p |}.
Definition setKp (v : nkeys.KeyPair) (p : Params) : Params :=
  {| name := name p; dir := dir p; kp := Some v; keyFile := keyFile p |}.
Definition setKeyFile (v : string) (p : Params) : Params :=
  {| name := name p; dir := dir p; kp := kp p; keyFile := v |}.

(** [Validate] touches nothing but the parameters. *)
Definition Validate (p : Params) : result error Params :=
  match Getwd with
  | Err e => Err e
  | Ok d =>
    let p := if negb (IsAbs d) then setDir (Join d (dir p)) p else p in
    let p := if String.eqb (name p) "" then setName (Base (dir p)) p else p in
    match kp p with
    | None =>
      if String.eqb KeyPathFlag "" then
        match CreateAccount with
        | Err e => Err e
        | Ok k => Ok (setKp k p)
        end
      else
        match ResolveKeyFlag with
        | Err e => Err e
        | Ok k =>
          match nkeys.PublicKey k with
          | Err e => Err e
          | Ok pk =>
            if negb (IsValidPublicAccountKey pk) then Err ErrNotAccountKey
            else Ok (setKp k p)
          end
        end
    | Some _ => Ok p
    end
  end.

(** [os.MkdirAll(d, 0700)]: the path and its missing ancestors are made;
    a call that fails leaves the ancestors it had got to. *)
Definition mkdirAll (d : string) : M World error unit :=
  match MkdirAllFails d with
  | Some (e, made) =>
    fun w => (Err e, {| dirs := made ∪ dirs w; files := files w;
                        stores := stores w |})
  | None => modify (fun w => {| dirs := {[d]} ∪ Ancestors d ∪ dirs w;
                                files := files w; stores := stores w |})
  end.

(** [ioutil.WriteFile(f, data, 0600)]: the file is created or truncated and
    then written; a call that fails after opening the file leaves what it
    had written, in place of what the file held. *)
Definition writeFile (f data : string) : M World error unit :=
  match WriteFileFails f data with
  | Some (e, None) => fail e
  | Some (e, Some part) =>
    fun w => (Err e, {| dirs := dirs w; files := <[f := part]> (files w);
                        stores := stores w |})
  | None => modify (fun w => {| dirs := dirs w; files := <[f := data]> (files w);
                                stores := stores w |})
  end.

(** [store.CreateStore(dir, name, kp)] *)
Definition createStore (d n : string) (k : option nkeys.KeyPair) : M World error unit :=
  match CreateStoreFails d n k with
  | Some e => fail e
  | None => modify (fun w => {| dirs := dirs w; files := files w;
                                stores := <[d := (n, k)]> (stores w) |})
  end.

Definition mapErr {A} (f : error -> error) (c : M World error A) : M World error A :=
  fun w => match c w with
           | (Ok a, w') => (Ok a, w')
           | (Err e, w') => (Err (f e), w')
           end.

Definition deref (o : option nkeys.KeyPair) : result error nkeys.KeyPair :=
  match o with
  | Some k => Ok k
  | None => Err (External "nil pointer dereference")
  end.

Definition Run (p : Params) : M World error Params :=
  p <~ (if String.eqb KeyPathFlag "" then
          (* save the generated key *)
          k <~ lift (deref (kp p)) ;
          seed <~ lift (nkeys.Seed k) ;
          let keyDir := GetKeysDir in
          let p := setKeyFile (Join keyDir (name p ++ ".nk")%string) p in
          run mapErr (ErrCreatingDirectory keyDir) (mkdirAll keyDir) ;
          run mapErr (ErrStoringKeyfile (keyFile p)) (writeFile (keyFile p) seed) ;
          ret p
        else ret p) ;
  run createStore (dir p) (name p) (kp p) ;
  ret p.

(** The [RunE] of [createAccountCmd]: [p] starts out empty but for the flag
    [--name]; the directory comes from the arguments. *)
Definition RunE (nameFlag : string) (args : list string) : M World error Params :=
  let p := {| name := nameFlag; dir := ""; kp := None; keyFile := "" |} in
  let p := if (length args =? 0)%nat then setDir "." p else p in
  let p := match args with [a] => setDir a p | _ => p end in
  p <~ lift (Validate p) ;
  Run p.

End WithEnv.
End CreateAccount.

(** ** add user: validation *)

Module AddUserValidate.

(** What [Validate] answers: its own error, or one handed up. *)
Inductive failure : Type :=
| UserNameRequired                     (* user name is required *)
| Failed (e : error).

(** The fields of [AddUserParams] that [Validate] reads or writes. *)
Record Params : Type := mkParams {
  name : string;
  time : TimeParams;
  resp : ResponsePermsParams.t
}.

Definition setName (v : string) (p : Params) : Params :=
  {| name := v; time := time p; resp := resp p |}.

(** [ctx.CurrentCmd()], as far as [Validate] writes it. *)
Record Cmd : Type := mkCmd { SilenceUsage : bool }.

(** The checks [Validate] hands on to the embedded parameter structs, and
    [GetRandomName]; they are code of other files of the package and are
    taken by what they answer.  The two that are given [ctx] can reach the
    command through it: they answer the command as they leave it. *)
Class Env : Type := {
  (** [GetRandomName(0)] *)
  GetRandomName : Z -> string;
  (** [p.AccountContextParams.Validate(ctx)] *)
  AccountContextValidate : Cmd -> option error * Cmd;
  (** [p.SignerParams.Resolve(ctx)] *)
  SignerResolve : Cmd -> option error * Cmd;
  (** [p.TimeParams.Validate()] *)
  TimeValidate : TimeParams -> option error;
  (** [p.Entity.Valid()], which sees the name [Validate] has settled on *)
  EntityValid : string -> option error
}.

Section WithEnv.
Context {env : Env} {lib : Library}.

(** [Validate] answers an error or the parameters as it leaves them, and
    the command as it leaves it. *)
Definition Validate (p : Params) (cmd : Cmd) : result failure Params * Cmd :=
  if String.eqb (name p) "" then
    (Err UserNameRequired, {| SilenceUsage := false |})
  else
    let p := if String.eqb (name p) "*" then setName (GetRandomName 0) p else p in
    match AccountContextValidate cmd with
    | (Some err, cmd) => (Err (Failed err), cmd)
    | (None, cmd) =>
      match SignerResolve cmd with
      | (Some err, cmd) => (Err (Failed err), cmd)
      | (None, cmd) =>
        match TimeValidate (time p) with
        | Some err => (Err (Failed err), cmd)
        | None =>
          match ResponsePermsParams.Validate (resp p) with
          | Some err => (Err (Failed err), cmd)
          | None =>
            match EntityValid (name p) with
            | Some err => (Err (Failed err), cmd)
            | None => (Ok p, cmd)
            end
          end
        end
      end
    end.

End WithEnv.
End AddUserValidate.

(** ** response permissions: the interactive edit *)

Module ResponsePermsEdit.

(** The prompts of [Edit], by what the user answers: a value and an error,
    as the prompt library returns them; and [strconv.Atoi]. *)
Class Prompter : Type := {
  (** [cli.Confirm("Set response permissions?", false)], or "Edit" when the
      claim has a response permission *)
  ConfirmResponse : bool -> bool * option error;
  (** [cli.Confirm("delete response permission", p.rmResp)] *)
  ConfirmDelete : bool -> bool * option error;
  (** [cli.Prompt("Max number of responses", default, validator)] with the
      current maximum as default *)
  PromptMax : Z -> (string -> option error) -> string * option error;
  (** [cli.Prompt("Response TTL", p.respTTL, validator)] *)
  PromptTTL : string -> (string -> option error) -> string * option error;
  (** [strconv.Atoi]: the number and the error *)
  Atoi : string -> Z * option error
}.

Section WithPrompter.
Context {prompter : Prompter} {lib : Library}.

Definition parseMaxResponse (s : string) : Z * option error :=
  if String.eqb s "" then (0, None) else Atoi s.

Definition maxResponseValidator (s : string) : option error :=
  snd (parseMaxResponse s).

Definition setRmResp (v : bool) (p : ResponsePermsParams.t) : ResponsePermsParams.t :=
  {| ResponsePermsParams.respTTL := ResponsePermsParams.respTTL p;
     ResponsePermsParams.respMax := ResponsePermsParams.respMax p;
     ResponsePermsParams.rmResp := v |}.
Definition setRespMax (v : Z) (p : ResponsePermsParams.t) : ResponsePermsParams.t :=
  {| ResponsePermsParams.respTTL := ResponsePermsParams.respTTL p;
     ResponsePermsParams.respMax := v;
     ResponsePermsParams.rmResp := ResponsePermsParams.rmResp p |}.
Definition setRespTTL (v : string) (p : ResponsePermsParams.t) : ResponsePermsParams.t :=
  {| ResponsePermsParams.respTTL := v;
     ResponsePermsParams.respMax := ResponsePermsParams.respMax p;
     ResponsePermsParams.rmResp := ResponsePermsParams.rmResp p |}.

(** [Edit(hasPerm)]: the error, and the parameters as the prompts leave
    them; an assignment [p.x, err = ...] stores the value also when the
    prompt fails. *)
Definition Edit (p : ResponsePermsParams.t) (hasPerm : bool)
  : option error * ResponsePermsParams.t :=
  match ConfirmResponse hasPerm with
  | (_, Some err) => (Some err, p)
  | (false, None) => (None, p)
  | (true, None) =>
    let '(e1, p) :=
      if hasPerm then
        let '(v, err) := ConfirmDelete (ResponsePermsParams.rmResp p) in
        (err, setRmResp v p)
      else (None, p) in
    match e1 with
    | Some err => (Some err, p)
    | None =>
      if negb (ResponsePermsParams.rmResp p) then
        match PromptMax (ResponsePermsParams.respMax p) maxResponseValidator with
        | (_, Some err) => (Some err, p)
        | (s, None) =>
          let p := setRespMax (fst (parseMaxResponse s)) p in
          let '(ttl, err) :=
            PromptTTL (ResponsePermsParams.respTTL p) ResponsePermsParams.ttlValidator in
          let p := setRespTTL ttl p in
          match err with
          | Some err => (Some err, p)
          | None => (None, p)
          end
        end
      else (None, p)
    end
  end.

End WithPrompter.
End ResponsePermsEdit.

(** ** Environments for the examples *)

Module Examples.

(** A library that knows one duration. *)
Definition library : Library :=
  {| ParseDuration := fun s =>
       if String.eqb s "5s" then Ok 5000000000
       else Err (External "time: invalid duration");
     TagListAdd := StringList.Add |}.

Definition noTime : TimeParams :=
  {| IsStartChanged := false; StartDate := 0;
     IsExpiryChanged := false; ExpiryDate := 0 |}.

Definition emptyClaims : jwt.UserClaims :=
  {| jwt.NotBefore := 0; jwt.Expires := 0;
     jwt.Perms := {| jwt.Pub := {| jwt.Allow := []; jwt.Deny := [] |};
                     jwt.Sub := {| jwt.Allow := []; jwt.Deny := [] |};
                     jwt.Resp := None |};
     jwt.Tags := [] |}.

(** [add user --allow-pubsub foo.>,bar --allow-pub zed --deny-sub bar] *)
Definition addUserFlags : AddUserParams.t :=
  {| AddUserParams.time := noTime;
     AddUserParams.resp := {| ResponsePermsParams.respTTL := "";
                              ResponsePermsParams.respMax := 0;
                              ResponsePermsParams.rmResp := false |};
     AddUserParams.allowPubs := ["zed"];
     AddUserParams.allowPubsub := ["foo.>"; "bar"];
     AddUserParams.allowSubs := [];
     AddUserParams.denyPubs := [];
     AddUserParams.denyPubsub := [];
     AddUserParams.denySubs := ["bar"];
     AddUserParams.src := [];
     AddUserParams.tags := [] |}.

(** [--rm-response-perms] together with [--allow-pub-response=5] and
    [--response-ttl 5s]. *)
Definition rmAndSet : ResponsePermsParams.t :=
  {| ResponsePermsParams.respTTL := "5s";
     ResponsePermsParams.respMax := 5;
     ResponsePermsParams.rmResp := true |}.

Definition withResponse : jwt.UserClaims :=
  jwt.setResp (fun _ => Some {| jwt.ResponsePermission.MaxMsgs := 1;
                                jwt.ResponsePermission.Expires := 0 |})
              emptyClaims.

(** *** add account *)

Definition someKey (pk : string) : nkeys.KeyPair :=
  {| nkeys.PublicKey := Ok pk; nkeys.Seed := Ok ("S" ++ pk)%string |}.

(** Every call succeeds; a token is the name it was made for. *)
Definition addAccountEnv : AddAccount.Env :=
  {| AddAccount.KeyPathFlag := "/keys/operator.nk";
     AddAccount.Context := unit;
     AddAccount.GetContext := fun _ => Ok tt;
     AddAccount.ResolveKey := fun _ kind path =>
       Ok (someKey (match kind with
                    | nkeys.PrefixByteOperator => "OPERATOR"
                    | _ => "ACCOUNT"
                    end));
     AddAccount.CreateAccount := Ok (someKey "AGENERATED");
     AddAccount.Encode := fun c _ => Ok (AddAccount.Name c);
     AddAccount.ClaimName := fun token => Ok token;
     AddAccount.KeyFile := fun root name _ => Ok (root ++ "/" ++ name ++ ".nk")%string |}.

Definition emptyStore : AddAccount.Store :=
  {| AddAccount.InfoName := "O"; AddAccount.Accounts := ∅ |}.

Definition freshWorld : AddAccount.World :=
  {| AddAccount.ngsStore := Ok emptyStore;
     AddAccount.keyring := ∅;
     AddAccount.trace := [] |}.

(** No store in the working directory. *)
Definition noStoreWorld : AddAccount.World :=
  {| AddAccount.ngsStore := Err (External "no store directory found");
     AddAccount.keyring := ∅;
     AddAccount.trace := [] |}.

(** A store that holds account [A]. *)
Definition worldWithA : AddAccount.World :=
  {| AddAccount.ngsStore :=
       Ok {| AddAccount.InfoName := "O"; AddAccount.Accounts := {[ "A" := "A" ]} |};
     AddAccount.keyring := ∅;
     AddAccount.trace := [] |}.

(** [add account --name A] *)
Definition addA : AddAccount.Params :=
  {| AddAccount.operatorKP := None; AddAccount.accountKP := None;
     AddAccount.accountKeyPath := ""; AddAccount.generate := false;
     AddAccount.claims := {| AddAccount.Name := "A"; AddAccount.Subject := "" |} |}.

(** [add account --name A --public-key ACCOUNT --generate-nkeys] *)
Definition addABothFlags : AddAccount.Params :=
  {| AddAccount.operatorKP := None; AddAccount.accountKP := None;
     AddAccount.accountKeyPath := "ACCOUNT"; AddAccount.generate := true;
     AddAccount.claims := {| AddAccount.Name := "A"; AddAccount.Subject := "" |} |}.

(** *** add user *)

(** The claim store holds the signed claims by user name, the key ring the
    public keys whose seed it has.  Claims are stored; the creds file cannot
    be written. *)
Definition addUserEnv : AddUser.Env :=
  {| AddUser.Store := gmap string string;
     AddUser.KeyStore := list string;
     AddUser.StoreKeys := fun e _ w =>
       match nkeys.PublicKey (AddUser.kp e) with
       | Ok pk => (None, (fst w, pk :: snd w))
       | Err err => (Some err, w)
       end;
     AddUser.GenerateClaim := fun e _ _ w =>
       ((None, None), (<[AddUser.name e := "signed claim"]> (fst w), snd w));
     AddUser.HasPrivateKey := fun ks pk => existsb (String.eqb pk) ks;
     AddUser.GenerateConfig := fun _ _ _ _ => Ok "creds";
     AddUser.MaybeStoreUserCreds := fun _ _ _ ks =>
       (("", Some (External "permission denied")), ks);
     AddUser.AbbrevHomePaths := fun path => path |}.

(** [add user --name U] in account [A], with a generated key. *)
Definition addU : AddUser.Params :=
  {| AddUser.accountName := "A";
     AddUser.signerKP := someKey "ACCOUNT";
     AddUser.entity := {| AddUser.name := "U"; AddUser.kp := someKey "USER";
                          AddUser.generated := true |};
     AddUser.credsFilePath := "" |}.

(** *** create account *)

(** [create account --private-key /keys/operator.nk]: the key file holds an
    operator key.  Public keys start with the letter of their role. *)
Definition createAccountEnv : CreateAccount.Env :=
  {| CreateAccount.Getwd := Ok "/home/me";
     CreateAccount.IsAbs := fun d => String.prefix "/" d;
     CreateAccount.Join := fun a b => (a ++ "/" ++ b)%string;
     CreateAccount.Base := fun d => d;
     CreateAccount.KeyPathFlag := "/keys/operator.nk";
     CreateAccount.ResolveKeyFlag := Ok (someKey "OPERATOR");
     CreateAccount.CreateAccount := Ok (someKey "AGENERATED");
     CreateAccount.IsValidPublicAccountKey := fun pk => String.prefix "A" pk;
     CreateAccount.GetKeysDir := "/home/me/.nkeys";
     CreateAccount.Ancestors := fun _ => ∅;
     CreateAccount.MkdirAllFails := fun _ => None;
     CreateAccount.WriteFileFails := fun _ _ => None;
     CreateAccount.CreateStoreFails := fun _ _ _ => None |}.

(** The same, with an account key in the file. *)
Definition createAccountEnvOk : CreateAccount.Env :=
  {| CreateAccount.Getwd := Ok "/home/me";
     CreateAccount.IsAbs := fun d => String.prefix "/" d;
     CreateAccount.Join := fun a b => (a ++ "/" ++ b)%string;
     CreateAccount.Base := fun d => d;
     CreateAccount.KeyPathFlag := "/keys/account.nk";
     CreateAccount.ResolveKeyFlag := Ok (someKey "ACCOUNT");
     CreateAccount.CreateAccount := Ok (someKey "AGENERATED");
     CreateAccount.IsValidPublicAccountKey := fun pk => String.prefix "A" pk;
     CreateAccount.GetKeysDir := "/home/me/.nkeys";
     CreateAccount.Ancestors := fun _ => ∅;
     CreateAccount.MkdirAllFails := fun _ => None;
     CreateAccount.WriteFileFails := fun _ _ => None;
     CreateAccount.CreateStoreFails := fun _ _ _ => None |}.

Definition emptyDisk : CreateAccount.World :=
  {| CreateAccount.dirs := ∅; CreateAccount.files := ∅; CreateAccount.stores := ∅ |}.

End Examples.

(** ** More environments, for the further properties *)

Module Scenarios.

(** *** add user: the edit *)

Definition flagsWith (resp : ResponsePermsParams.t) (allowPubs allowPubsub tags : list string)
  : AddUserParams.t :=
  {| AddUserParams.time := Examples.noTime;
     AddUserParams.resp := resp;
     AddUserParams.allowPubs := allowPubs;
     AddUserParams.allowPubsub := allowPubsub;
     AddUserParams.allowSubs := [];
     AddUserParams.denyPubs := [];
     AddUserParams.denyPubsub := [];
     AddUserParams.denySubs := ["bar"];
     AddUserParams.src := [];
     AddUserParams.tags := tags |}.

Definition noResponse : ResponsePermsParams.t :=
  {| ResponsePermsParams.respTTL := ""; ResponsePermsParams.respMax := 0;
     ResponsePermsParams.rmResp := false |}.

(** [--allow-pub-response=3 --response-ttl soon] *)
Definition badTTL : ResponsePermsParams.t :=
  {| ResponsePermsParams.respTTL := "soon"; ResponsePermsParams.respMax := 3;
     ResponsePermsParams.rmResp := false |}.

(** [--response-ttl 5s] *)
Definition ttlOnly : ResponsePermsParams.t :=
  {| ResponsePermsParams.respTTL := "5s"; ResponsePermsParams.respMax := 0;
     ResponsePermsParams.rmResp := false |}.

(** [--allow-pub-response=2] *)
Definition maxOnly : ResponsePermsParams.t :=
  {| ResponsePermsParams.respTTL := ""; ResponsePermsParams.respMax := 2;
     ResponsePermsParams.rmResp := false |}.

(** A claim that allows five responses within three seconds. *)
Definition fiveInThree : jwt.UserClaims :=
  jwt.setResp (fun _ => Some {| jwt.ResponsePermission.MaxMsgs := 5;
                                jwt.ResponsePermission.Expires := 3000000000 |})
              Examples.emptyClaims.

(** [--allow-pubsub foo.>,bar --allow-pub zed], and the same patterns in
    another order, one of them twice, [bar] on the single flag. *)
Definition oneWay : AddUserParams.t := flagsWith noResponse ["zed"] ["foo.>"; "bar"] [].
Definition otherWay : AddUserParams.t :=
  {| AddUserParams.time := Examples.noTime;
     AddUserParams.resp := noResponse;
     AddUserParams.allowPubs := ["bar"; "zed"; "bar"];
     AddUserParams.allowPubsub := ["foo.>"];
     AddUserParams.allowSubs := ["bar"];
     AddUserParams.denyPubs := [];
     AddUserParams.denyPubsub := [];
     AddUserParams.denySubs := ["bar"; "bar"];
     AddUserParams.src := [];
     AddUserParams.tags := [] |}.

(** *** add account *)

(** As [Examples.addAccountEnv], but the key file cannot be written. *)
Definition keyFileFails : AddAccount.Env :=
  {| AddAccount.KeyPathFlag := "/keys/operator.nk";
     AddAccount.Context := unit;
     AddAccount.GetContext := fun _ => Ok tt;
     AddAccount.ResolveKey := fun _ _ _ => Ok (Examples.someKey "OPERATOR");
     AddAccount.CreateAccount := Ok (Examples.someKey "AGENERATED");
     AddAccount.Encode := fun c _ => Ok (AddAccount.Name c);
     AddAccount.ClaimName := fun token => Ok token;
     AddAccount.KeyFile := fun _ _ _ => Err (External "disk full") |}.

(** [add account --name A --generate-nkeys] *)
Definition addAGenerate : AddAccount.Params :=
  {| AddAccount.operatorKP := None; AddAccount.accountKP := None;
     AddAccount.accountKeyPath := ""; AddAccount.generate := true;
     AddAccount.claims := {| AddAccount.Name := "A"; AddAccount.Subject := "" |} |}.

(** *** add user: the run *)

(** The stores of [Examples.addUserEnv]; [claimFails] says whether the claim
    can be made, [seed] whether the user's seed gets into the key ring,
    [credsFail] whether the creds file can be written. *)
Definition addUserEnv (claimFails seed credsFail : bool) : AddUser.Env :=
  {| AddUser.Store := gmap string string;
     AddUser.KeyStore := list string;
     AddUser.StoreKeys := fun e _ w =>
       match nkeys.PublicKey (AddUser.kp e) with
       | Ok pk => (None, (fst w, if seed then pk :: snd w else snd w))
       | Err err => (Some err, w)
       end;
     AddUser.GenerateClaim := fun e _ _ w =>
       if claimFails then ((None, Some (External "cannot sign")), w)
       else ((Some (store.StOK (store.MsgFromError (External "claim stored"))), None),
             (<[AddUser.name e := "signed claim"]> (fst w), snd w));
     AddUser.HasPrivateKey := fun ks pk => existsb (String.eqb pk) ks;
     AddUser.GenerateConfig := fun _ _ _ _ => Ok "creds";
     AddUser.MaybeStoreUserCreds := fun a u _ ks =>
       if credsFail then (("", Some (External "permission denied")), ks)
       else ((a ++ "/" ++ u ++ ".creds")%string, None, ks);
     AddUser.AbbrevHomePaths := fun path => path |}.

(** A user whose key pair has no public key. *)
Definition brokenKey : AddUser.Params :=
  {| AddUser.accountName := "A";
     AddUser.signerKP := Examples.someKey "ACCOUNT";
     AddUser.entity := {| AddUser.name := "U";
                          AddUser.kp := {| nkeys.PublicKey := Err (External "no key");
                                           nkeys.Seed := Err (External "no key") |};
                          AddUser.generated := false |};
     AddUser.credsFilePath := "" |}.

(** *** create account *)

Definition createEnv (keyPathFlag : string) (storeFails : option error)
  : CreateAccount.Env :=
  {| CreateAccount.Getwd := Ok "/home/me";
     CreateAccount.IsAbs := fun d => String.prefix "/" d;
     CreateAccount.Join := fun a b => (a ++ "/" ++ b)%string;
     CreateAccount.Base := fun d => d;
     CreateAccount.KeyPathFlag := keyPathFlag;
     CreateAccount.ResolveKeyFlag := Ok (Examples.someKey "ACCOUNT");
     CreateAccount.CreateAccount := Ok (Examples.someKey "AGENERATED");
     CreateAccount.IsValidPublicAccountKey := fun pk => String.prefix "A" pk;
     CreateAccount.GetKeysDir := "/home/me/.nkeys";
     CreateAccount.Ancestors := fun _ => ∅;
     CreateAccount.MkdirAllFails := fun _ => None;
     CreateAccount.WriteFileFails := fun _ _ => None;
     CreateAccount.CreateStoreFails := fun _ _ _ => storeFails |}.

(** *** add user: validation and prompts *)

Definition validateEnv : AddUserValidate.Env :=
  {| AddUserValidate.GetRandomName := fun _ => "brave_lion";
     AddUserValidate.AccountContextValidate := fun cmd => (None, cmd);
     AddUserValidate.SignerResolve := fun cmd => (None, cmd);
     AddUserValidate.TimeValidate := fun _ => None;
     AddUserValidate.EntityValid := fun _ => None |}.

Definition starUser : AddUserValidate.Params :=
  {| AddUserValidate.name := "*"; AddUserValidate.time := Examples.noTime;
     AddUserValidate.resp := ttlOnly |}.

Definition namelessUser : AddUserValidate.Params :=
  {| AddUserValidate.name := ""; AddUserValidate.time := Examples.noTime;
     AddUserValidate.resp := ttlOnly |}.

(** A user who wants to edit, and to delete the response permission when
    asked. *)
Definition deleting : ResponsePermsEdit.Prompter :=
  {| ResponsePermsEdit.ConfirmResponse := fun _ => (true, None);
     ResponsePermsEdit.ConfirmDelete := fun _ => (true, None);
     ResponsePermsEdit.PromptMax := fun _ _ => ("7", None);
     ResponsePermsEdit.PromptTTL := fun _ _ => ("5s", None);
     ResponsePermsEdit.Atoi := fun s =>
       if String.eqb s "7" then (7, None) else (0, Some (External "invalid syntax")) |}.

(** A user who declines. *)
Definition declining : ResponsePermsEdit.Prompter :=
  {| ResponsePermsEdit.ConfirmResponse := fun _ => (false, None);
     ResponsePermsEdit.ConfirmDelete := fun _ => (true, None);
     ResponsePermsEdit.PromptMax := fun _ _ => ("7", None);
     ResponsePermsEdit.PromptTTL := fun _ _ => ("5s", None);
     ResponsePermsEdit.Atoi := fun _ => (0, Some (External "invalid syntax")) |}.

End Scenarios.

(** * Properties *)

(** Unfolds the operations of the monad. *)
Ltac unfold_M := unfold bind, modify, ret, fail, lift.

(** ** RevocationList *)

Module RevocationFacts.
Import RevocationList.

Lemma lookup_Revoke_eq (r : gmap string Z) target at_ now :
  Revoke r target at_ now !! target = Some (Time.unix (default now at_)).
Proof. unfold Revoke. apply lookup_insert_eq. Qed.

Lemma lookup_Revoke_ne (r : gmap string Z) target other at_ now :
  target <> other -> Revoke r target at_ now !! other = r !! other.
Proof. intros Hne. unfold Revoke. by apply lookup_insert_ne. Qed.

(** The query after a revocation, in full: the target's own cutoff, or the
    wildcard entry that was on the list. *)
Lemma IsRevokedAt_Revoke (r : gmap string Z) target at_ now t :
  IsRevokedAt (Revoke r target at_ now) target t =
  (Time.unix t <=? Time.unix (default now at_))
  || (negb (String.eqb target All) && covers (r !! All) t).
Proof.
  unfold IsRevokedAt. rewrite lookup_Revoke_eq. cbn [covers].
  destruct (String.eqb_spec target All) as [->|Hne].
  - rewrite lookup_Revoke_eq. cbn. by rewrite orb_diag, orb_false_r.
  - by rewrite lookup_Revoke_ne.
Qed.

(** Clearing a target that is not on the list changes nothing. *)
Lemma Clear_absent (r : gmap string Z) target :
  r !! target = None -> Clear r target = r.
Proof. apply delete_id. Qed.

Lemma Clear_not_revoked (r : gmap string Z) target t :
  r !! All = None -> IsRevokedAt (Clear r target) target t = false.
Proof.
  intros Hall. unfold IsRevokedAt, Clear. rewrite lookup_delete_eq. cbn.
  destruct (decide (target = All)) as [->|Hne].
  - by rewrite lookup_delete_eq.
  - by rewrite lookup_delete_ne, Hall.
Qed.

(** A wildcard entry revokes every target up to its cutoff, whatever the
    target's own entry says. *)
Lemma Revoke_All_revokes_every_target (r : gmap string Z) at_ now target t :
  Time.unix t <= Time.unix (default now at_) ->
  IsRevokedAt (Revoke r All at_ now) target t = true.
Proof.
  intros Hle. unfold IsRevokedAt. rewrite lookup_Revoke_eq.
  apply orb_true_iff. right. by apply Z.leb_le.
Qed.

Lemma unix_Unix_0 (s : Z) : Time.unix (Time.Unix s 0) = s.
Proof.
  unfold Time.unix, Time.Unix. cbn [Time.sec].
  change (0 / 1000000000) with 0. lia.
Qed.

(** C1, as the specification states it, fails: with a wildcard entry of
    cutoff 2000 on the list, revoking ACCT1 with cutoff 1000 leaves a token
    issued at 1500, after that cutoff, revoked. *)
Lemma Revoke_cutoff_counterexample :
  let r : gmap string Z := {[ All := 2000 ]} in
  let r' := Revoke r "ACCT1" (Some (Time.Unix 1000 0)) (Time.Unix 5000 0) in
  Time.unix (Time.Unix 1500 0) > Time.unix (Time.Unix 1000 0) /\
  IsRevokedAt r' "ACCT1" (Time.Unix 1500 0) = true.
Proof. split; [reflexivity | by vm_compute]. Qed.

(** C1 (amended): after [Revoke(T, C)], [IsRevokedAt(T, t)] is true for every
    issue time [t <= C]; it is false for every [t > C] that no wildcard
    entry of the list covers (always so when [T] is the wildcard itself, or
    when the list has no wildcard entry).  Times compare by their whole
    seconds.  After revoking on a fresh list with cutoff 1000 the query at
    [Unix(999,0)] is true and at [Unix(1001,0)] false. *)
Theorem Revoke_IsRevokedAt_cutoff (r : gmap string Z) (T : string) (C now t : Time.t) :
  let r' := Revoke r T (Some C) now in
  (Time.unix t <= Time.unix C -> IsRevokedAt r' T t = true) /\
  (Time.unix t > Time.unix C ->
   T = All \/ covers (r !! All) t = false ->
   IsRevokedAt r' T t = false) /\
  (let fresh := Revoke ∅ T (Some (Time.Unix 1000 0)) now in
   IsRevokedAt fresh T (Time.Unix 999 0) = true /\
   IsRevokedAt fresh T (Time.Unix 1001 0) = false).
Proof.
  cbn zeta. repeat split.
  - intros Hle. rewrite IsRevokedAt_Revoke. cbn [from_option id].
    apply orb_true_iff. left. by apply Z.leb_le.
  - intros Hgt Hwild. rewrite IsRevokedAt_Revoke. cbn [from_option id].
    replace (Time.unix t <=? Time.unix C) with false
      by (symmetry; apply Z.leb_gt; lia).
    destruct Hwild as [-> | ->].
    + by rewrite String.eqb_refl.
    + by rewrite andb_false_r.
  - rewrite IsRevokedAt_Revoke. done.
  - rewrite IsRevokedAt_Revoke, lookup_empty. cbn [from_option id covers].
    rewrite andb_false_r. done.
Qed.

Lemma Revoke_IsRevokedAt_cutoff_witness :
  let r' := Revoke ∅ "ACCT1" (Some (Time.Unix 1000 0)) (Time.Unix 5000 0) in
  IsRevokedAt r' "ACCT1" (Time.Unix 999 0) = true /\
  IsRevokedAt r' "ACCT1" (Time.Unix 1001 0) = false.
Proof.
  cbn zeta.
  pose proof (Revoke_IsRevokedAt_cutoff ∅ "ACCT1" (Time.Unix 1000 0)
                (Time.Unix 5000 0) (Time.Unix 999 0)) as [Hle _].
  pose proof (Revoke_IsRevokedAt_cutoff ∅ "ACCT1" (Time.Unix 1000 0)
                (Time.Unix 5000 0) (Time.Unix 1001 0)) as (_ & Hgt & _).
  split.
  - apply Hle. vm_compute. discriminate.
  - apply Hgt; [reflexivity | right; reflexivity].
Defined.

(** C2: revoking without an explicit cutoff stores the wall-clock time of
    the call; with the clock at or after the epoch, as a wall clock is, the
    target is then revoked at [Unix(0,0)]. *)
Theorem Revoke_now (r : gmap string Z) (T : string) (now : Time.t) :
  let r' := Revoke r T None now in
  r' !! T = Some (Time.unix now) /\
  (0 <= Time.unix now -> IsRevokedAt r' T (Time.Unix 0 0) = true).
Proof.
  cbn zeta. split.
  - apply lookup_Revoke_eq.
  - intros Hclock. rewrite IsRevokedAt_Revoke. cbn [from_option id].
    rewrite unix_Unix_0. apply orb_true_iff. left. by apply Z.leb_le.
Qed.

Lemma Revoke_now_witness :
  let now := Time.Unix 1793664000 0 in
  let r' := Revoke ∅ "ACCT1" None now in
  r' !! "ACCT1" = Some 1793664000 /\
  IsRevokedAt r' "ACCT1" (Time.Unix 0 0) = true.
Proof.
  cbn zeta.
  destruct (Revoke_now ∅ "ACCT1" (Time.Unix 1793664000 0)) as [Hst Hrev].
  split.
  - exact Hst.
  - apply Hrev. vm_compute. discriminate.
Defined.

End RevocationFacts.

(** ** StringList.Add and sort.Strings *)

Module StringListFacts.
Import StringList.

Lemma Contains_In (u : list string) (p : string) : Contains u p = true <-> In p u.
Proof.
  unfold Contains. rewrite existsb_exists. split.
  - intros (x & Hx & Heq). apply String.eqb_eq in Heq. by subst.
  - intros Hin. exists p. split; [done | apply String.eqb_refl].
Qed.

Lemma Add_nil (u : list string) : Add u [] = u.
Proof. reflexivity. Qed.

Lemma Add_cons (u : list string) (p : string) (ps : list string) :
  Add u (p :: ps) = Add (if Contains u p then u else u ++ [p]) ps.
Proof. reflexivity. Qed.

(** Two calls in a row add what one call with both argument lists adds. *)
Lemma Add_app (u ps qs : list string) : Add (Add u ps) qs = Add u (ps ++ qs).
Proof. unfold Add. by rewrite fold_left_app. Qed.

Lemma In_Add (u ps : list string) (x : string) :
  In x (Add u ps) <-> In x u \/ In x ps.
Proof.
  revert u. induction ps as [|p ps IH]; intros u.
  - rewrite Add_nil. cbn. tauto.
  - rewrite Add_cons, IH. destruct (Contains u p) eqn:Hc.
    + apply Contains_In in Hc. cbn. split; [tauto|].
      intros [H|[->|H]]; tauto.
    + rewrite in_app_iff. cbn. tauto.
Qed.

(** Adding what is there changes nothing. *)
Lemma Add_present (u ps : list string) :
  (forall p, In p ps -> In p u) -> Add u ps = u.
Proof.
  induction ps as [|p ps IH]; intros Hall; [done|].
  rewrite Add_cons.
  assert (Hc : Contains u p = true) by (apply Contains_In, Hall; by left).
  rewrite Hc. apply IH. intros q Hq. apply Hall. by right.
Qed.

Lemma Add_idempotent (u ps : list string) : Add (Add u ps) ps = Add u ps.
Proof. apply Add_present. intros p Hp. apply In_Add. by right. Qed.

Lemma Add_NoDup (u ps : list string) : NoDup u -> NoDup (Add u ps).
Proof.
  revert u. induction ps as [|p ps IH]; intros u Hnd; [done|].
  rewrite Add_cons. apply IH. destruct (Contains u p) eqn:Hc; [done|].
  apply NoDup_app; repeat split; [done| |apply NoDup_singleton].
  intros x Hx Hx'. apply list_elem_of_In in Hx.
  apply list_elem_of_singleton in Hx' as ->.
  apply Contains_In in Hx. congruence.
Qed.

End StringListFacts.

Module sortFacts.
Import sort.

Lemma insert_Permutation (s : string) (l : list string) :
  Permutation (insert s l) (s :: l).
Proof.
  induction l as [|x r IH]; cbn; [done|].
  destruct (String.leb s x); [done|].
  rewrite IH. apply perm_swap.
Qed.

Lemma Strings_Permutation (l : list string) : Permutation (Strings l) l.
Proof.
  induction l as [|x r IH]; cbn; [done|].
  rewrite insert_Permutation. by constructor.
Qed.

Lemma In_Strings (l : list string) (x : string) : In x (Strings l) <-> In x l.
Proof.
  split; apply Permutation_in; [|symmetry]; apply Strings_Permutation.
Qed.

Lemma insert_sorted (s : string) (l : list string) :
  StringsAreSorted l = true -> StringsAreSorted (insert s l) = true.
Proof.
  induction l as [|x r IH]; intros Hs; [done|].
  cbn [insert]. destruct (String.leb s x) eqn:Hsx.
  - cbn [StringsAreSorted]. by rewrite Hsx.
  - assert (Hxs : String.leb x s = true)
      by (destruct (String.leb_total x s); congruence).
    destruct r as [|y r'].
    + cbn. by rewrite Hxs.
    + cbn [StringsAreSorted] in Hs. apply andb_true_iff in Hs as [Hxy Hr].
      specialize (IH Hr). cbn [insert] in *.
      destruct (String.leb s y); cbn [StringsAreSorted] in *.
      * by rewrite Hxs, IH.
      * by rewrite Hxy, IH.
Qed.

Lemma Strings_sorted (l : list string) : StringsAreSorted (Strings l) = true.
Proof.
  induction l as [|x r IH]; [done|]. cbn [Strings fold_right].
  by apply insert_sorted.
Qed.

(** Sorting a sorted list leaves it as it is. *)
Lemma Strings_of_sorted (l : list string) :
  StringsAreSorted l = true -> Strings l = l.
Proof.
  induction l as [|x r IH]; intros Hs; [done|].
  cbn [Strings fold_right]. fold (Strings r).
  destruct r as [|y r']; [done|].
  cbn [StringsAreSorted] in Hs. apply andb_true_iff in Hs as [Hxy Hr].
  rewrite (IH Hr). cbn [insert]. by rewrite Hxy.
Qed.

End sortFacts.

(** ** add user: editing the claim *)

Module EditFacts.
Import StringListFacts sortFacts.

Section WithLibrary.
Context {lib : Library}.

(** The response-permission edit leaves the subject lists alone. *)
Lemma Run_keeps_lists (p : ResponsePermsParams.t) ctx uc :
  let uc' := snd (ResponsePermsParams.Run p ctx uc) in
  jwt.Pub (jwt.Perms uc') = jwt.Pub (jwt.Perms uc) /\
  jwt.Sub (jwt.Perms uc') = jwt.Sub (jwt.Perms uc).
Proof.
  unfold ResponsePermsParams.Run. unfold_M.
  destruct (ResponsePermsParams.rmResp p); [done|].
  destruct (max_responses_Changed ctx || negb (ResponsePermsParams.respMax p =? 0));
    destruct (negb (String.eqb (ResponsePermsParams.respTTL p) ""));
    try done;
    destruct (ResponsePermsParams.parseTTL (ResponsePermsParams.respTTL p)); done.
Qed.

(** With removal requested, [Run] clears the response permission and does
    nothing else. *)
Lemma Run_rmResp (p : ResponsePermsParams.t) ctx uc :
  ResponsePermsParams.rmResp p = true ->
  ResponsePermsParams.Run p ctx uc =
  (Ok (store.AddOK (store.NewDetailedReport true) store.MsgRemovedResponsePerms),
   jwt.setResp (fun _ => None) uc).
Proof. intros Hrm. unfold ResponsePermsParams.Run. by rewrite Hrm. Qed.

(** The four subject lists after a successful edit. *)
Lemma editUser_lists (p : AddUserParams.t) ctx uc uc' :
  AddUserParams.editUser p ctx uc = (Ok tt, uc') ->
  let add l a b := sort.Strings (StringList.Add (StringList.Add l a) b) in
  jwt.Allow (jwt.Pub (jwt.Perms uc')) =
    add (jwt.Allow (jwt.Pub (jwt.Perms uc)))
        (AddUserParams.allowPubs p) (AddUserParams.allowPubsub p) /\
  jwt.Deny (jwt.Pub (jwt.Perms uc')) =
    add (jwt.Deny (jwt.Pub (jwt.Perms uc)))
        (AddUserParams.denyPubs p) (AddUserParams.denyPubsub p) /\
  jwt.Allow (jwt.Sub (jwt.Perms uc')) =
    add (jwt.Allow (jwt.Sub (jwt.Perms uc)))
        (AddUserParams.allowSubs p) (AddUserParams.allowPubsub p) /\
  jwt.Deny (jwt.Sub (jwt.Perms uc')) =
    add (jwt.Deny (jwt.Sub (jwt.Perms uc)))
        (AddUserParams.denySubs p) (AddUserParams.denyPubsub p).
Proof.
  unfold AddUserParams.editUser, AddUserParams.when.
  set (uc0 := snd (bind (if IsStartChanged (AddUserParams.time p)
                         then modify (jwt.setNotBefore (StartDate (AddUserParams.time p)))
                         else ret tt)
                        (fun _ => if IsExpiryChanged (AddUserParams.time p)
                         then modify (jwt.setExpires (ExpiryDate (AddUserParams.time p)))
                         else ret tt) uc : result error unit * jwt.UserClaims)).
  assert (H0 : jwt.Perms uc0 = jwt.Perms uc).
  { subst uc0. unfold bind, modify, ret.
    by destruct (IsStartChanged _), (IsExpiryChanged _). }
  pose proof (Run_keeps_lists (AddUserParams.resp p) ctx uc0) as [HP HS].
  cbn zeta in HP, HS. rewrite H0 in HP, HS.
  unfold bind, modify, ret.
  destruct (IsStartChanged _), (IsExpiryChanged _); cbn in uc0; subst uc0;
    destruct (ResponsePermsParams.Run _ _ _) as [[r|e] uc1]; cbn in HP, HS;
    intros [= <-]; cbn; rewrite HP, HS; done.
Qed.

(** Two [Add] calls on one list, and the one call that does the same. *)
Lemma Add_twice_as_once (field : (list string -> list string) -> jwt.Permission -> jwt.Permission)
      (side : (jwt.Permission -> jwt.Permission) -> jwt.UserClaims -> jwt.UserClaims)
      (a b : list string) (uc : jwt.UserClaims) :
  (field = jwt.setAllow \/ field = jwt.setDeny) ->
  (side = jwt.setPub \/ side = jwt.setSub) ->
  side (field (fun l => StringList.Add l b))
       (side (field (fun l => StringList.Add l a)) uc) =
  side (field (fun l => StringList.Add l []))
       (side (field (fun l => StringList.Add l (a ++ b))) uc).
Proof.
  destruct uc as [nb ex [[pa pd] [sa sd] rs] tg].
  intros [-> | ->] [-> | ->];
    unfold jwt.setPub, jwt.setSub, jwt.setPerms, jwt.setAllow, jwt.setDeny;
    cbn -[StringList.Add]; by rewrite <- Add_app, Add_nil.
Qed.

(** Who is on a list after a successful edit: who was there, and who the
    flags name. *)
Lemma editUser_membership (p : AddUserParams.t) ctx uc uc' (x : string) :
  AddUserParams.editUser p ctx uc = (Ok tt, uc') ->
  (In x (jwt.Allow (jwt.Pub (jwt.Perms uc'))) <->
   In x (jwt.Allow (jwt.Pub (jwt.Perms uc))) \/
   In x (AddUserParams.allowPubs p) \/ In x (AddUserParams.allowPubsub p)) /\
  (In x (jwt.Allow (jwt.Sub (jwt.Perms uc'))) <->
   In x (jwt.Allow (jwt.Sub (jwt.Perms uc))) \/
   In x (AddUserParams.allowSubs p) \/ In x (AddUserParams.allowPubsub p)).
Proof.
  intros H. apply editUser_lists in H as (HPA & _ & HSA & _). cbn zeta in *.
  rewrite HPA, HSA, !In_Strings, !In_Add. tauto.
Qed.

(** C3: for every user claim and every list of patterns, giving the patterns
    to the combined pub+sub flag leaves the claim exactly as giving them to
    the pub-only and to the sub-only flag does; so the publish list and the
    subscribe list have the same members either way (allow and deny
    alike). *)
Theorem pubsub_flag_as_pub_and_sub (p : AddUserParams.t) (c : jwt.Claims) ctx :
  AddUserParams.editUserClaim p c ctx =
  AddUserParams.editUserClaim (AddUserParams.splitPubsub p) c ctx /\
  forall uc,
    let uc1 := snd (AddUserParams.editUser p ctx uc) in
    let uc2 := snd (AddUserParams.editUser (AddUserParams.splitPubsub p) ctx uc) in
    forall x : string,
      (In x (jwt.Allow (jwt.Pub (jwt.Perms uc1))) <->
       In x (jwt.Allow (jwt.Pub (jwt.Perms uc2)))) /\
      (In x (jwt.Allow (jwt.Sub (jwt.Perms uc1))) <->
       In x (jwt.Allow (jwt.Sub (jwt.Perms uc2)))) /\
      (In x (jwt.Deny (jwt.Pub (jwt.Perms uc1))) <->
       In x (jwt.Deny (jwt.Pub (jwt.Perms uc2)))) /\
      (In x (jwt.Deny (jwt.Sub (jwt.Perms uc1))) <->
       In x (jwt.Deny (jwt.Sub (jwt.Perms uc2)))).
Proof.
  assert (Hedit : forall uc,
             AddUserParams.editUser p ctx uc =
             AddUserParams.editUser (AddUserParams.splitPubsub p) ctx uc).
  { intros uc. unfold AddUserParams.editUser, AddUserParams.when, bind, modify, ret.
    cbn [AddUserParams.time AddUserParams.resp AddUserParams.splitPubsub
         AddUserParams.allowPubs AddUserParams.allowPubsub AddUserParams.allowSubs
         AddUserParams.denyPubs AddUserParams.denyPubsub AddUserParams.denySubs
         AddUserParams.tags].
    destruct (IsStartChanged _), (IsExpiryChanged _);
      destruct (ResponsePermsParams.Run _ _ _) as [[r|e] uc1]; try reflexivity;
      rewrite (Add_twice_as_once jwt.setAllow jwt.setPub) by tauto;
      rewrite (Add_twice_as_once jwt.setDeny jwt.setPub) by tauto;
      rewrite (Add_twice_as_once jwt.setAllow jwt.setSub) by tauto;
      rewrite (Add_twice_as_once jwt.setDeny jwt.setSub) by tauto;
      reflexivity. }
  split.
  - destruct c as [uc|]; [|reflexivity]. cbn. by rewrite Hedit.
  - intros uc uc1 uc2 x. subst uc1 uc2. by rewrite Hedit.
Qed.

(** C4: [Add] is idempotent: a pattern already on the list leaves the list
    as it is, adding the same patterns again changes nothing, and adding
    present patterns does not grow the list; after every edit of a claim each
    of the four allow/deny pub/sub lists is sorted, and an edit that adds
    again what the last one added leaves the four lists as they are. *)
Theorem Add_idempotent_lists_sorted :
  (forall (l : list string) (p : string), In p l -> StringList.Add l [p] = l) /\
  (forall l ps : list string,
      StringList.Add (StringList.Add l ps) ps = StringList.Add l ps) /\
  (forall l ps : list string,
      (forall p, In p ps -> In p l) ->
      length (StringList.Add l ps) = length l) /\
  (forall (p : AddUserParams.t) ctx uc uc',
      AddUserParams.editUser p ctx uc = (Ok tt, uc') ->
      sort.StringsAreSorted (jwt.Allow (jwt.Pub (jwt.Perms uc'))) = true /\
      sort.StringsAreSorted (jwt.Deny (jwt.Pub (jwt.Perms uc'))) = true /\
      sort.StringsAreSorted (jwt.Allow (jwt.Sub (jwt.Perms uc'))) = true /\
      sort.StringsAreSorted (jwt.Deny (jwt.Sub (jwt.Perms uc'))) = true) /\
  (forall (p : AddUserParams.t) ctx uc uc' uc'',
      AddUserParams.editUser p ctx uc = (Ok tt, uc') ->
      AddUserParams.editUser p ctx uc' = (Ok tt, uc'') ->
      jwt.Pub (jwt.Perms uc'') = jwt.Pub (jwt.Perms uc') /\
      jwt.Sub (jwt.Perms uc'') = jwt.Sub (jwt.Perms uc')).
Proof.
  split; [|split; [|split; [|split]]].
  - intros l p Hin. apply Add_present. intros q [<-|[]]. done.
  - apply Add_idempotent.
  - intros l ps Hall. by rewrite Add_present.
  - intros p ctx uc uc' H.
    apply editUser_lists in H as (-> & -> & -> & ->).
    repeat split; apply Strings_sorted.
  - intros p ctx uc uc' uc'' H1 H2.
    apply editUser_lists in H1 as (HPA & HPD & HSA & HSD).
    apply editUser_lists in H2 as (HPA' & HPD' & HSA' & HSD').
    cbn zeta in *.
    assert (Hre : forall l a b : list string,
               sort.Strings
                 (StringList.Add
                    (StringList.Add
                       (sort.Strings (StringList.Add (StringList.Add l a) b)) a) b) =
               sort.Strings (StringList.Add (StringList.Add l a) b)).
    { intros l a b.
      rewrite (Add_present _ a), (Add_present _ b).
      - apply Strings_of_sorted, Strings_sorted.
      - intros q Hq. apply In_Strings, In_Add. by right.
      - intros q Hq. apply In_Strings, In_Add. left. apply In_Add. by right. }
    rewrite HPA in HPA'. rewrite HPD in HPD'.
    rewrite HSA in HSA'. rewrite HSD in HSD'.
    rewrite Hre in HPA', HPD', HSA', HSD'.
    rewrite <- HPA in HPA'. rewrite <- HPD in HPD'.
    rewrite <- HSA in HSA'. rewrite <- HSD in HSD'.
    destruct (jwt.Pub (jwt.Perms uc'')), (jwt.Pub (jwt.Perms uc')),
      (jwt.Sub (jwt.Perms uc'')), (jwt.Sub (jwt.Perms uc')).
    cbn in *. by subst.
Qed.

(** C7: in one edit of the response permission, removing excludes setting:
    when removal is requested the response permission is cleared, the rest
    of the claim is as it was, the report has the removal as its only line,
    and neither the max-messages nor the TTL flag has any effect; the same
    holds when the edit runs as part of [editUserClaim]. *)
Theorem rmResp_excludes_set (p : ResponsePermsParams.t) ctx (uc : jwt.UserClaims) :
  ResponsePermsParams.rmResp p = true ->
  ResponsePermsParams.Run p ctx uc =
    (Ok (store.AddOK (store.NewDetailedReport true) store.MsgRemovedResponsePerms),
     jwt.setResp (fun _ => None) uc) /\
  jwt.Resp (jwt.Perms (snd (ResponsePermsParams.Run p ctx uc))) = None /\
  (forall ap : AddUserParams.t,
      AddUserParams.resp ap = p ->
      fst (AddUserParams.editUser ap ctx uc) = Ok tt /\
      jwt.Resp (jwt.Perms (snd (AddUserParams.editUser ap ctx uc))) = None).
Proof.
  intros Hrm. rewrite (Run_rmResp p ctx uc Hrm).
  split; [done|]. split; [done|].
  intros ap Hap. subst p.
  unfold AddUserParams.editUser, AddUserParams.when, bind, modify, ret.
  destruct (IsStartChanged _), (IsExpiryChanged _);
    rewrite Run_rmResp by done; done.
Qed.

End WithLibrary.

Lemma Add_idempotent_lists_sorted_witness :
  StringList.Add ["bar"; "foo.>"] ["foo.>"] = ["bar"; "foo.>"] /\
  length (StringList.Add ["bar"; "foo.>"] ["foo.>"; "bar"]) = 2%nat /\
  let uc' := snd (AddUserParams.editUser (lib := Examples.library)
                    Examples.addUserFlags (mkActionCtx false) Examples.emptyClaims) in
  jwt.Allow (jwt.Pub (jwt.Perms uc')) = ["bar"; "foo.>"; "zed"] /\
  sort.StringsAreSorted (jwt.Allow (jwt.Pub (jwt.Perms uc'))) = true /\
  sort.StringsAreSorted (jwt.Allow (jwt.Sub (jwt.Perms uc'))) = true.
Proof.
  destruct (Add_idempotent_lists_sorted (lib := Examples.library))
    as (Hone & _ & Hlen & Hsorted & _).
  split; [|split].
  - apply Hone. cbn. tauto.
  - apply (Hlen ["bar"; "foo.>"] ["foo.>"; "bar"]). cbn. intuition.
  - cbn zeta.
    destruct (Hsorted Examples.addUserFlags (mkActionCtx false) Examples.emptyClaims
                (snd (AddUserParams.editUser (lib := Examples.library)
                        Examples.addUserFlags (mkActionCtx false) Examples.emptyClaims))
                eq_refl)
      as (HPA & _ & HSA & _).
    split; [reflexivity | split; assumption].
Defined.

Lemma rmResp_excludes_set_witness :
  let r := ResponsePermsParams.Run (lib := Examples.library) Examples.rmAndSet
             (mkActionCtx true) Examples.withResponse in
  jwt.Resp (jwt.Perms (snd r)) = None /\
  fst r = Ok {| store.Opt := true;
                store.Details := [store.StOK store.MsgRemovedResponsePerms] |}.
Proof.
  cbn zeta.
  destruct (rmResp_excludes_set (lib := Examples.library) Examples.rmAndSet
              (mkActionCtx true) Examples.withResponse eq_refl) as (Hrun & Hresp & _).
  split; [exact Hresp | by rewrite Hrun].
Defined.

(** [add user --allow-pubsub foo.>,bar --allow-pub zed --deny-sub bar] on a
    claim without permissions, and the same with the pub+sub patterns given
    to [--allow-pub] and [--allow-sub]. *)
Example allow_pubsub_example :
  let ctx := mkActionCtx false in
  let uc1 := snd (AddUserParams.editUser (lib := Examples.library)
                    Examples.addUserFlags ctx Examples.emptyClaims) in
  let uc2 := snd (AddUserParams.editUser (lib := Examples.library)
                    (AddUserParams.splitPubsub Examples.addUserFlags) ctx
                    Examples.emptyClaims) in
  jwt.Allow (jwt.Pub (jwt.Perms uc1)) = ["bar"; "foo.>"; "zed"] /\
  jwt.Allow (jwt.Sub (jwt.Perms uc1)) = ["bar"; "foo.>"] /\
  jwt.Deny (jwt.Sub (jwt.Perms uc1)) = ["bar"] /\
  uc2 = uc1.
Proof. cbn zeta. repeat split; reflexivity. Qed.

(** [Validate] looks at the TTL only: it lets removal and setting through
    together; it is [Run] that keeps them apart. *)
Example Validate_accepts_remove_with_set :
  ResponsePermsParams.Validate (lib := Examples.library) Examples.rmAndSet = None.
Proof. reflexivity. Qed.

End EditFacts.

(** ** add account *)

Module AddAccountFacts.
Import AddAccount.

(** A name with a record has exactly one. *)
Lemma claimsNamed_one (s : Store) (name token : string) :
  Accounts s !! name = Some token -> claimsNamed s name = 1%nat.
Proof.
  intros Hlk. unfold claimsNamed.
  rewrite <- (insert_delete_id (Accounts s) name token Hlk).
  rewrite map_to_list_insert by apply lookup_delete_eq.
  rewrite filter_cons_True by done. cbn [length]. f_equal.
  apply length_zero_iff_nil.
  assert (Hno : forall kv, kv ∈ map_to_list (delete name (Accounts s)) -> kv.1 <> name).
  { intros [k v] Hin Heq. cbn in Heq. subst k.
    apply elem_of_map_to_list in Hin. by rewrite lookup_delete_eq in Hin. }
  induction (map_to_list (delete name (Accounts s))) as [|kv l IH]; [done|].
  rewrite filter_cons_False by (apply Hno; left).
  apply IH. intros kv' Hin. apply Hno. by right.
Qed.

Lemma claimsNamed_none (s : Store) (name : string) :
  Accounts s !! name = None -> claimsNamed s name = 0%nat.
Proof.
  intros Hlk. unfold claimsNamed. apply length_zero_iff_nil.
  assert (Hno : forall kv, kv ∈ map_to_list (Accounts s) -> kv.1 <> name).
  { intros [k v] Hin Heq. cbn in Heq. subst k.
    apply elem_of_map_to_list in Hin. congruence. }
  induction (map_to_list (Accounts s)) as [|kv l IH]; [done|].
  rewrite filter_cons_False by (apply Hno; left).
  apply IH. intros kv' Hin. apply Hno. by right.
Qed.

Lemma Has_true (s : Store) (name : string) :
  Has s name = true <-> exists token, Accounts s !! name = Some token.
Proof. unfold Has. rewrite bool_decide_eq_true. reflexivity. Qed.

Section WithEnv.
Context {env : Env}.

(** Both [--public-key] and [--generate-nkeys]: [Validate] stops right after
    it has asked for the store. *)
Lemma Validate_both_flags (p : Params) (w : World) :
  negb (String.eqb (accountKeyPath p) "") && generate p = true ->
  Validate p w =
  (match ngsStore w with
   | Ok _ => Err ErrSpecifyOneOf
   | Err e => Err e
   end, record EvGetStore w).
Proof.
  intros Hboth. unfold Validate, getStore. unfold_M. cbn.
  destruct (ngsStore w); [|done]. by rewrite Hboth.
Qed.

(** The name is taken: [Validate] stops right after it has looked. *)
Lemma Validate_exists (p : Params) (w : World) (s : Store) :
  ngsStore w = Ok s ->
  negb (String.eqb (accountKeyPath p) "") && generate p = false ->
  Has s (Name (claims p)) = true ->
  Validate p w =
  (Err (ErrAccountExists (Name (claims p))),
   record (EvHas (Name (claims p))) (record EvGetStore w)).
Proof.
  intros Hs Hflags Hhas. unfold Validate, getStore, has. unfold_M.
  cbn. by rewrite Hs, Hflags, Hhas.
Qed.

(** When [Validate] fails, so does the command, and [Run] never starts. *)
Lemma RunE_Validate_fails (p : Params) (w w' : World) (e : error) :
  Validate p w = (Err e, w') -> RunE p w = (Err e, w').
Proof. intros HV. unfold RunE, bind. by rewrite HV. Qed.

(** C5 (amended): adding an account under a name the store already holds
    fails before any signing or write: with [AlreadyExists], unless both
    [--public-key] and [--generate-nkeys] are given, which is rejected first
    with its own error.  The store and the key ring are as they were, the
    only calls made are the ones that get the store and look the name up,
    and the store holds exactly one claim under the name. *)
Theorem add_existing_account_fails (p : Params) (w : World) (s : Store) :
  ngsStore w = Ok s ->
  Has s (Name (claims p)) = true ->
  let both := negb (String.eqb (accountKeyPath p) "") && generate p in
  let r := RunE p w in
  fst r = Err (if both then ErrSpecifyOneOf
               else ErrAccountExists (Name (claims p))) /\
  ngsStore (snd r) = Ok s /\
  keyring (snd r) = keyring w /\
  trace (snd r) =
    trace w ++ (if both then [EvGetStore]
                else [EvGetStore; EvHas (Name (claims p))]) /\
  Forall (fun ev => isSigning ev = false /\ isWrite ev = false)
         (drop (length (trace w)) (trace (snd r))) /\
  claimsNamed s (Name (claims p)) = 1%nat.
Proof.
  intros Hs Hhas both r.
  assert (Hone : claimsNamed s (Name (claims p)) = 1%nat).
  { apply Has_true in Hhas as [token Htok]. by eapply claimsNamed_one. }
  subst r. destruct both eqn:Hboth; subst both.
  - rewrite (RunE_Validate_fails p w (record EvGetStore w) ErrSpecifyOneOf)
      by (rewrite Validate_both_flags by done; by rewrite Hs).
    cbn. repeat split; try done.
    rewrite drop_app_length. by repeat constructor.
  - rewrite (RunE_Validate_fails p w _ _ (Validate_exists p w s Hs Hboth Hhas)).
    cbn. repeat split; try done.
    + by rewrite <- app_assoc.
    + rewrite <- app_assoc, drop_app_length. by repeat constructor.
Qed.

(** C10 (amended): with both an explicit public key and the generate-keys
    option, validation fails before any key resolution, signing, store
    lookup or write: the one call made before the check is the one that
    gets the store, and when that call fails its error is the one returned.
    The command stops there as well. *)
Theorem both_flags_rejected (p : Params) (w : World) :
  accountKeyPath p <> "" ->
  generate p = true ->
  Validate p w =
    (match ngsStore w with
     | Ok _ => Err ErrSpecifyOneOf
     | Err e => Err e
     end, record EvGetStore w) /\
  is_err (fst (Validate p w)) = true /\
  is_err (fst (RunE p w)) = true /\
  snd (RunE p w) = record EvGetStore w /\
  ngsStore (snd (Validate p w)) = ngsStore w /\
  keyring (snd (Validate p w)) = keyring w /\
  trace (snd (Validate p w)) = trace w ++ [EvGetStore] /\
  Forall (fun ev => isKeyResolution ev = false /\ isSigning ev = false /\
                    isWrite ev = false)
         (drop (length (trace w)) (trace (snd (Validate p w)))).
Proof.
  intros Hpath Hgen.
  assert (Hboth : negb (String.eqb (accountKeyPath p) "") && generate p = true).
  { rewrite Hgen, andb_true_r. apply negb_true_iff. by apply String.eqb_neq. }
  pose proof (Validate_both_flags p w Hboth) as HV.
  assert (HR : RunE p w =
               (match ngsStore w with
                | Ok _ => Err ErrSpecifyOneOf
                | Err e => Err e
                end, record EvGetStore w)).
  { unfold RunE, bind. rewrite HV. by destruct (ngsStore w). }
  rewrite HV, HR. cbn [fst snd record trace ngsStore keyring].
  rewrite drop_app_length.
  repeat split; try done; try (by destruct (ngsStore w)).
  by repeat constructor.
Qed.

End WithEnv.

(** C5, as the specification states it, fails: account [A] exists and the
    command is given both [--public-key] and [--generate-nkeys]; it fails,
    but not with [AlreadyExists]. *)
Lemma add_existing_account_counterexample :
  let w := Examples.worldWithA in
  let p := Examples.addABothFlags in
  (exists s, ngsStore w = Ok s /\ Has s (Name (claims p)) = true) /\
  fst (RunE (env := Examples.addAccountEnv) p w) = Err ErrSpecifyOneOf /\
  fst (RunE (env := Examples.addAccountEnv) p w) <> Err (ErrAccountExists "A").
Proof.
  cbn zeta. split; [eexists; split; reflexivity|].
  split; [reflexivity | discriminate].
Qed.

(** Add account [A] to a fresh store, then add it again. *)
Lemma add_existing_account_fails_witness :
  let w1 := snd (RunE (env := Examples.addAccountEnv) Examples.addA Examples.freshWorld) in
  let r2 := RunE (env := Examples.addAccountEnv) Examples.addA w1 in
  fst (RunE (env := Examples.addAccountEnv) Examples.addA Examples.freshWorld)
    = Ok (AddedAccount "A") /\
  fst r2 = Err (ErrAccountExists "A") /\
  ngsStore (snd r2) = ngsStore w1 /\
  exists s, ngsStore (snd r2) = Ok s /\ claimsNamed s "A" = 1%nat.
Proof.
  cbn zeta.
  set (w1 := snd (RunE (env := Examples.addAccountEnv) Examples.addA Examples.freshWorld)).
  set (s1 := {| InfoName := "O"; Accounts := <["A" := "A"]> ∅ |}).
  assert (Hs : ngsStore w1 = Ok s1) by reflexivity.
  assert (Hhas : Has s1 (Name (claims Examples.addA)) = true) by reflexivity.
  destruct (add_existing_account_fails (env := Examples.addAccountEnv)
              Examples.addA w1 s1 Hs Hhas) as (Herr & Hst & _ & _ & _ & Hone).
  split; [reflexivity|]. split; [exact Herr|].
  split; [by rewrite Hst, Hs|]. exists s1. by split.
Defined.

(** C10, as the specification states it, fails: the store is reached for
    before the flags are checked.  With a store, the call is on the trace;
    without one, the error that comes back is the store's. *)
Lemma both_flags_counterexample :
  let p := Examples.addABothFlags in
  accountKeyPath p <> "" /\ generate p = true /\
  existsb isStoreAccess
    (trace (snd (Validate (env := Examples.addAccountEnv) p Examples.worldWithA))) = true /\
  fst (Validate (env := Examples.addAccountEnv) p Examples.noStoreWorld)
    = Err (External "no store directory found").
Proof. cbn zeta. repeat split; done. Qed.

Lemma both_flags_rejected_witness :
  let p := Examples.addABothFlags in
  let r := Validate (env := Examples.addAccountEnv) p Examples.worldWithA in
  fst r = Err ErrSpecifyOneOf /\
  trace (snd r) = [EvGetStore] /\
  ngsStore (snd r) = ngsStore Examples.worldWithA.
Proof.
  cbn zeta.
  destruct (both_flags_rejected (env := Examples.addAccountEnv)
              Examples.addABothFlags Examples.worldWithA)
    as (HV & _ & _ & _ & Hst & _ & Htr & _); [discriminate | reflexivity |].
  split; [by rewrite HV|]. by split.
Defined.

End AddAccountFacts.

(** ** add user: the report *)

Module AddUserFacts.
Import AddUser.

Lemma HasNoErrors_Add (r : store.Report) (s : store.Status) :
  store.HasNoErrors (store.Add r s) = store.HasNoErrors r && store.StatusOK s.
Proof.
  unfold store.HasNoErrors, store.Add. cbn [store.Details].
  rewrite forallb_app. cbn. by rewrite andb_true_r.
Qed.

Lemma Details_Add (r : store.Report) (s : store.Status) :
  store.Details (store.Add r s) = store.Details r ++ [s].
Proof. reflexivity. Qed.

Section WithEnv.
Context {env : Env}.

(** C6: the claim was signed and stored ([GenerateClaim] answered no error)
    and the creds file could not be made or written: [Run] returns no
    top-level error; the failure is an error line of the report it returns,
    and the report has errors; the claim store is the one [GenerateClaim]
    left, nothing is rolled back. *)
Theorem creds_failure_is_reported (p : Params) ctx (w w1 w2 : Store * KeyStore)
        (rs : option store.Status) (m : store.Message) :
  StoreKeys (entity p) (accountName p) w = (None, w1) ->
  GenerateClaim (entity p) (signerKP p) ctx w1 = ((rs, None), w2) ->
  HasPrivateKey (snd w2) (publicKeyOf p) = true ->
  credsError p w2 = Some m ->
  let o := Run p ctx w in
  err o = None /\
  (exists r : store.Report,
      status o = Some (store.AsStatus r) /\
      In (store.StErr m) (store.Details r) /\
      store.HasNoErrors r = false) /\
  fst (world o) = fst w2.
Proof.
  intros HSK HGC HHas Hcreds o. subst o.
  unfold Run. rewrite HSK, HGC, HHas. unfold credsError in Hcreds.
  set (r0 := if generated (entity p) then _ else _).
  assert (Hline : forall (r : store.Report) m',
             In (store.StErr m') (store.Details (store.AddError r m')) /\
             store.HasNoErrors (store.AddError r m') = false).
  { intros r m'. unfold store.AddError. rewrite HasNoErrors_Add, Details_Add.
    split; [apply in_or_app; right; by left | apply andb_false_r]. }
  destruct (GenerateConfig _ _ _ _) as [d|e].
  - destruct (MaybeStoreUserCreds _ _ _ _) as [[path [e|]] ks']; [|discriminate].
    injection Hcreds as <-.
    destruct (Hline r0 (store.MsgErrorStoringCreds e)) as [Hin Herr].
    rewrite Herr. cbn [err status world fst].
    split; [done|]. split; [|done]. eexists. by repeat split.
  - injection Hcreds as <-.
    destruct (Hline r0 (store.MsgUnableToSaveCreds e)) as [Hin Herr].
    rewrite Herr. cbn [err status world fst].
    split; [done|]. split; [|done]. eexists. by repeat split.
Qed.

End WithEnv.

(** User [U] is added to account [A]: the claim is stored, the creds file
    cannot be written. *)
Lemma creds_failure_is_reported_witness :
  let o := Run (env := Examples.addUserEnv) Examples.addU (mkActionCtx false) (∅, []) in
  err o = None /\
  (exists r : store.Report,
      status o = Some (store.AsStatus r) /\
      In (store.StErr (store.MsgErrorStoringCreds (External "permission denied")))
         (store.Details r) /\
      store.HasNoErrors r = false) /\
  fst (world o) = {[ "U" := "signed claim" ]}.
Proof.
  cbn zeta.
  destruct (creds_failure_is_reported (env := Examples.addUserEnv) Examples.addU
              (mkActionCtx false) (∅, []) (∅, ["USER"])
              ({[ "U" := "signed claim" ]}, ["USER"]) None
              (store.MsgErrorStoringCreds (External "permission denied"))
              eq_refl eq_refl eq_refl eq_refl) as (Herr & Hrep & Hst).
  split; [exact Herr|]. split; [exact Hrep|]. exact Hst.
Defined.

End AddUserFacts.

(** ** create account *)

Module CreateAccountFacts.
Import CreateAccount.

Section WithEnv.
Context {env : Env}.

(** With an explicit key, [Validate] on parameters without a key pair
    answers as the loaded key decides. *)
Lemma Validate_explicit_key (p : Params) (d : string) (k : nkeys.KeyPair) (pk : string) :
  Getwd = Ok d ->
  kp p = None ->
  KeyPathFlag <> "" ->
  ResolveKeyFlag = Ok k ->
  nkeys.PublicKey k = Ok pk ->
  (IsValidPublicAccountKey pk = false -> Validate p = Err ErrNotAccountKey) /\
  (forall p', Validate p = Ok p' ->
              kp p' = Some k /\ IsValidPublicAccountKey pk = true).
Proof.
  intros Hwd Hkp Hflag Hres Hpk.
  apply String.eqb_neq in Hflag.
  unfold Validate. rewrite Hwd.
  set (p1 := if negb (IsAbs d) then _ else p).
  set (p2 := if String.eqb (name p1) "" then _ else p1).
  assert (Hkp2 : kp p2 = None).
  { subst p2 p1.
    repeat match goal with
           | |- context [if ?b then _ else _] => destruct b
           end; exact Hkp. }
  rewrite Hkp2, Hflag, Hres, Hpk.
  destruct (IsValidPublicAccountKey pk); cbn; split; try done.
  intros p' [= <-]. by cbn.
Qed.

(** [Validate] fails only by answering an error: it writes nothing. *)
Lemma RunE_stops_at_Validate (nameFlag : string) (args : list string) (w : World) :
  let p := {| name := nameFlag; dir := ""; kp := None; keyFile := "" |} in
  let p := if (length args =? 0)%nat then setDir "." p else p in
  let p := match args with [a] => setDir a p | _ => p end in
  forall e, Validate p = Err e -> RunE nameFlag args w = (Err e, w).
Proof. cbn zeta. intros e HV. unfold RunE, bind, lift. by rewrite HV. Qed.

(** With an explicit key, [Run] leaves the key pair alone. *)
Lemma Run_explicit_key (p p' : Params) (w w' : World) :
  KeyPathFlag <> "" -> Run p w = (Ok p', w') -> kp p' = kp p.
Proof.
  intros Hflag. apply String.eqb_neq in Hflag.
  unfold Run, bind, ret, createStore. rewrite Hflag.
  destruct (CreateStoreFails _ _ _); cbn; [discriminate|].
  by intros [= <- _].
Qed.

(** C8: an explicit private key given to account creation is loaded and the
    role prefix of its public key is checked to be the account prefix.  If
    the key is not an account key the command fails and creates nothing:
    no directory, no key file, no store; once the working directory is
    known, so that key resolution is reached, the error is the key mismatch.
    If the command succeeds, the key pair it used is the loaded one and it
    is an account key. *)
Theorem explicit_key_must_be_account_key
        (nameFlag : string) (args : list string) (w : World)
        (k : nkeys.KeyPair) (pk : string) :
  KeyPathFlag <> "" ->
  ResolveKeyFlag = Ok k ->
  nkeys.PublicKey k = Ok pk ->
  let r := RunE nameFlag args w in
  (IsValidPublicAccountKey pk = false ->
   is_err (fst r) = true /\
   snd r = w /\
   (forall d, Getwd = Ok d -> fst r = Err ErrNotAccountKey)) /\
  (forall p', fst r = Ok p' ->
              kp p' = Some k /\ IsValidPublicAccountKey pk = true).
Proof.
  intros Hflag Hres Hpk r. subst r.
  pose proof (RunE_stops_at_Validate nameFlag args w) as Hfail. cbn zeta in Hfail.
  unfold RunE in *.
  set (p := match args with [a] => _ | _ => _ end) in *.
  assert (Hkp : kp p = None).
  { subst p. destruct args as [|a [|b args]]; reflexivity. }
  destruct Getwd as [d|e] eqn:Hwd.
  - destruct (Validate_explicit_key p d k pk Hwd Hkp Hflag Hres Hpk) as [Hbad Hgood].
    split.
    + intros Hinvalid. rewrite (Hfail _ (Hbad Hinvalid)). by repeat split.
    + intros p'. unfold bind at 1, lift.
      destruct (Validate p) as [p1|e] eqn:HV; [|discriminate].
      destruct (Hgood p1 eq_refl) as [Hk Hvalid].
      destruct (Run p1 w) as [[p2|e] w'] eqn:HR; [|discriminate].
      cbn. intros [= <-]. split; [|done].
      by rewrite (Run_explicit_key p1 p2 w w' Hflag HR).
  - assert (HV : Validate p = Err e) by (unfold Validate; by rewrite Hwd).
    rewrite (Hfail _ HV). split; [|discriminate].
    intros _. repeat split. intros d [=].
Qed.

End WithEnv.

(** [create account --private-key /keys/operator.nk]: the key is an operator
    key; nothing is created. *)
Lemma explicit_key_must_be_account_key_witness :
  let r := RunE (env := Examples.createAccountEnv) "myaccount" ["acct"] Examples.emptyDisk in
  fst r = Err ErrNotAccountKey /\ snd r = Examples.emptyDisk.
Proof.
  cbn zeta.
  destruct (explicit_key_must_be_account_key (env := Examples.createAccountEnv)
              "myaccount" ["acct"] Examples.emptyDisk
              (Examples.someKey "OPERATOR") "OPERATOR")
    as [Hbad _]; [discriminate | reflexivity | reflexivity |].
  destruct (Hbad eq_refl) as (_ & Hw & Herr).
  split; [exact (Herr "/home/me" eq_refl) | exact Hw].
Defined.

(** The same command with an account key in the file goes through, with
    that key. *)
Example create_account_with_account_key :
  let r := RunE (env := Examples.createAccountEnvOk) "myaccount" ["acct"] Examples.emptyDisk in
  (exists p', fst r = Ok p' /\ kp p' = Some (Examples.someKey "ACCOUNT")) /\
  stores (snd r) !! "acct" = Some ("myaccount", Some (Examples.someKey "ACCOUNT")).
Proof. cbn zeta. split; [eexists; split; reflexivity | reflexivity]. Qed.

End CreateAccountFacts.

(** ** The order of strings, and sorting as a canonical form *)

Module OrderFacts.
Import sort sortFacts StringList StringListFacts.

Lemma compare_not_Gt_trans (a b c : string) :
  String.compare a b <> Gt -> String.compare b c <> Gt -> String.compare a c <> Gt.
Proof.
  revert b c. induction a as [|x a IH]; intros [|y b] [|z c]; cbn; try congruence.
  unfold Ascii.compare.
  destruct (N.compare_spec (N_of_ascii x) (N_of_ascii y)) as [Hxy|Hxy|Hxy];
    destruct (N.compare_spec (N_of_ascii y) (N_of_ascii z)) as [Hyz|Hyz|Hyz];
    destruct (N.compare_spec (N_of_ascii x) (N_of_ascii z)) as [Hxz|Hxz|Hxz];
    try congruence; try lia.
  apply IH.
Qed.

Lemma leb_trans (a b c : string) :
  String.leb a b = true -> String.leb b c = true -> String.leb a c = true.
Proof.
  unfold String.leb. intros Hab Hbc.
  pose proof (compare_not_Gt_trans a b c) as H.
  destruct (String.compare a b), (String.compare b c), (String.compare a c);
    try done; exfalso; apply H; congruence.
Qed.

Lemma leb_false_flip (a b : string) : String.leb a b = false -> String.leb b a = true.
Proof. intros H. destruct (String.leb_total a b); congruence. Qed.

(** Inserting two strings gives the same list in either order. *)
Lemma insert_insert (x y : string) (l : list string) :
  insert x (insert y l) = insert y (insert x l).
Proof.
  induction l as [|h t IH]; cbn [insert].
  - destruct (String.leb x y) eqn:Hxy, (String.leb y x) eqn:Hyx; try reflexivity.
    + by rewrite (String.leb_antisym x y Hxy Hyx).
    + apply leb_false_flip in Hxy. congruence.
  - destruct (String.leb y h) eqn:Hyh, (String.leb x h) eqn:Hxh; cbn [insert].
    + destruct (String.leb x y) eqn:Hxy, (String.leb y x) eqn:Hyx;
        rewrite ?Hxh, ?Hyh; try reflexivity.
      * by rewrite (String.leb_antisym x y Hxy Hyx).
      * apply leb_false_flip in Hxy. congruence.
    + assert (Hyx : String.leb y x = true).
      { apply leb_false_flip in Hxh. by eapply leb_trans. }
      assert (Hxy : String.leb x y = false).
      { destruct (String.leb x y) eqn:Hxy; [|done].
        rewrite (leb_trans x y h Hxy Hyh) in Hxh. done. }
      by rewrite Hxy, Hxh, Hyh.
    + assert (Hxy : String.leb x y = true).
      { apply leb_false_flip in Hyh. by eapply leb_trans. }
      assert (Hyx : String.leb y x = false).
      { destruct (String.leb y x) eqn:Hyx; [|done].
        rewrite (leb_trans y x h Hyx Hxh) in Hyh. done. }
      by rewrite Hxh, Hyx, Hyh.
    + by rewrite Hxh, Hyh, IH.
Qed.

(** Sorting forgets the order of its input. *)
Lemma Strings_Permutation_eq (l1 l2 : list string) :
  Permutation l1 l2 -> Strings l1 = Strings l2.
Proof.
  assert (Hcons : forall x l, Strings (x :: l) = insert x (Strings l))
    by reflexivity.
  induction 1 as [|x l1 l2 _ IH|x y l|l1 l2 l3 _ IH1 _ IH2].
  - reflexivity.
  - by rewrite !Hcons, IH.
  - rewrite !Hcons. apply insert_insert.
  - congruence.
Qed.

(** [Add] keeps the list and appends the new values, each once. *)
Lemma Add_appends (u ps : list string) :
  exists news : list string,
    Add u ps = u ++ news /\ List.NoDup news /\
    forall x, In x news <-> In x ps /\ ~ In x u.
Proof.
  revert u. induction ps as [|p ps IH]; intros u.
  - exists []. rewrite Add_nil, app_nil_r. repeat split; try constructor; cbn; tauto.
  - rewrite Add_cons. destruct (Contains u p) eqn:Hc.
    + apply Contains_In in Hc. destruct (IH u) as (news & -> & Hnd & Hin).
      exists news. split; [done|]. split; [done|].
      intros x. rewrite Hin. cbn. split; [tauto|].
      intros [[<-|H] Hn]; tauto.
    + assert (Hp : ~ In p u).
      { intros Hin. apply Contains_In in Hin. congruence. }
      destruct (IH (u ++ [p])) as (news & -> & Hnd & Hin).
      exists (p :: news). split; [by rewrite <- app_assoc|]. split.
      * constructor; [|done]. rewrite Hin, in_app_iff. cbn. tauto.
      * intros x. cbn. rewrite Hin, in_app_iff. cbn.
        destruct (String.eqb_spec p x) as [->|Hne]; tauto.
Qed.

(** The order of the values given to [Add] matters to the order of the
    result only. *)
Lemma Add_Permutation (u ps qs : list string) :
  (forall x, In x ps <-> In x qs) -> Permutation (Add u ps) (Add u qs).
Proof.
  intros Hsame.
  destruct (Add_appends u ps) as (n1 & -> & Hnd1 & Hin1).
  destruct (Add_appends u qs) as (n2 & -> & Hnd2 & Hin2).
  apply Permutation_app_head.
  apply Stdlib.Sorting.Permutation.NoDup_Permutation; [done | done |].
  intros x. rewrite Hin1, Hin2, Hsame. tauto.
Qed.

End OrderFacts.

(** ** add user: more on the edit of the claim *)

Module EditMore.
Import StringListFacts sortFacts OrderFacts EditFacts.

Section WithLibrary.
Context {lib : Library}.

(** The response-permission edit leaves everything but [Resp] alone. *)
Lemma Run_keeps_rest (p : ResponsePermsParams.t) ctx uc :
  let uc' := snd (ResponsePermsParams.Run p ctx uc) in
  jwt.NotBefore uc' = jwt.NotBefore uc /\
  jwt.Expires uc' = jwt.Expires uc /\
  jwt.Tags uc' = jwt.Tags uc.
Proof.
  unfold ResponsePermsParams.Run. unfold_M.
  destruct (ResponsePermsParams.rmResp p); [done|].
  destruct (max_responses_Changed ctx || negb (ResponsePermsParams.respMax p =? 0));
    destruct (negb (String.eqb (ResponsePermsParams.respTTL p) ""));
    try done;
    destruct (ResponsePermsParams.parseTTL (ResponsePermsParams.respTTL p)); done.
Qed.

(** [Run] fails only on a TTL it cannot parse. *)
Lemma Run_error (p : ResponsePermsParams.t) ctx uc uc' e :
  ResponsePermsParams.Run p ctx uc = (Err e, uc') ->
  ResponsePermsParams.rmResp p = false /\
  ResponsePermsParams.respTTL p <> "" /\
  ParseDuration (ResponsePermsParams.respTTL p) = Err e.
Proof.
  unfold ResponsePermsParams.Run, ResponsePermsParams.parseTTL. unfold_M.
  destruct (ResponsePermsParams.rmResp p); [done|].
  destruct (String.eqb_spec (ResponsePermsParams.respTTL p) "") as [Heq|Hne];
    cbn [negb];
    destruct (max_responses_Changed ctx || negb (ResponsePermsParams.respMax p =? 0));
    try done;
    destruct (ParseDuration (ResponsePermsParams.respTTL p)) as [v|e'];
    try done; by intros [= <- _].
Qed.

(** After [Validate], neither [Run] nor the edit that runs it fails. *)
Lemma edit_after_Validate (p : ResponsePermsParams.t) :
  ResponsePermsParams.Validate p = None ->
  forall ctx uc,
    (exists r, fst (ResponsePermsParams.Run p ctx uc) = Ok r) /\
    (forall ap : AddUserParams.t,
        AddUserParams.resp ap = p ->
        fst (AddUserParams.editUser ap ctx uc) = Ok tt /\
        fst (AddUserParams.editUserClaim ap (jwt.User uc) ctx) = Ok tt).
Proof.
  intros HV.
  assert (Hok : forall ctx uc, exists r, fst (ResponsePermsParams.Run p ctx uc) = Ok r).
  { intros ctx uc.
    destruct (ResponsePermsParams.Run p ctx uc) as [[r|e] uc'] eqn:HR; [by exists r|].
    apply Run_error in HR as (_ & Hne & Hparse). exfalso.
    unfold ResponsePermsParams.Validate, ResponsePermsParams.ttlValidator,
      ResponsePermsParams.parseTTL in HV.
    apply String.eqb_neq in Hne. rewrite Hne, Hparse in HV. discriminate. }
  intros ctx uc. split; [apply Hok|].
  intros ap Hap. subst p.
  assert (He : fst (AddUserParams.editUser ap ctx uc) = Ok tt).
  { unfold AddUserParams.editUser, AddUserParams.when. unfold_M.
    destruct (IsStartChanged _), (IsExpiryChanged _);
      match goal with
      | |- context [ResponsePermsParams.Run ?q ?c ?u] =>
          destruct (Hok c u) as [r Hr];
          destruct (ResponsePermsParams.Run q c u) as [[r'|e] uc'];
          [reflexivity | discriminate Hr]
      end. }
  split; [exact He|].
  cbn [AddUserParams.editUserClaim].
  destruct (AddUserParams.editUser ap ctx uc); exact He.
Qed.

(** X1: once [Validate] has accepted the response flags, [Run] cannot fail,
    and neither can the edit of a user claim that runs it. *)
Theorem Validate_guards_the_edit (p : ResponsePermsParams.t) :
  ResponsePermsParams.Validate p = None ->
  forall ctx uc,
    (exists r, fst (ResponsePermsParams.Run p ctx uc) = Ok r) /\
    (forall ap : AddUserParams.t,
        AddUserParams.resp ap = p ->
        fst (AddUserParams.editUser ap ctx uc) = Ok tt /\
        fst (AddUserParams.editUserClaim ap (jwt.User uc) ctx) = Ok tt).
Proof. exact (edit_after_Validate p). Qed.

(** X2: an edit that fails does so on the TTL, before any subject list or
    tag is touched: the four lists and the tags are as they were. *)
Theorem failed_edit_keeps_lists (p : AddUserParams.t) ctx uc uc' e :
  AddUserParams.editUser p ctx uc = (Err e, uc') ->
  ParseDuration (ResponsePermsParams.respTTL (AddUserParams.resp p)) = Err e /\
  jwt.Pub (jwt.Perms uc') = jwt.Pub (jwt.Perms uc) /\
  jwt.Sub (jwt.Perms uc') = jwt.Sub (jwt.Perms uc) /\
  jwt.Tags uc' = jwt.Tags uc.
Proof.
  unfold AddUserParams.editUser, AddUserParams.when. unfold_M.
  destruct (IsStartChanged _), (IsExpiryChanged _);
    match goal with
    | |- context [ResponsePermsParams.Run ?q ?c ?u] =>
        pose proof (Run_keeps_lists q c u) as [HP HS];
        pose proof (Run_keeps_rest q c u) as (_ & _ & HT);
        destruct (ResponsePermsParams.Run q c u) as [[r|e'] uc1] eqn:HR
    end; cbn zeta in *; cbn [snd] in *; try discriminate;
    intros [= <- <-]; apply Run_error in HR as (_ & _ & Hparse);
    rewrite HP, HS, HT; done.
Qed.

(** X3: without removal, [Run] writes the fields that were asked for and
    keeps the others: the maximum is set when [--max-responses] was given or
    the maximum is not zero, the TTL when it is not empty; a field not set
    keeps the value of the permission that was there, or is zero when there
    was none; with neither asked for the claim is as it was.  Nothing but
    the response permission changes. *)
Theorem Run_sets_what_is_asked (p : ResponsePermsParams.t) ctx uc r uc' :
  ResponsePermsParams.rmResp p = false ->
  ResponsePermsParams.Run p ctx uc = (Ok r, uc') ->
  let setMax := max_responses_Changed ctx
                || negb (ResponsePermsParams.respMax p =? 0) in
  let setTTL := negb (String.eqb (ResponsePermsParams.respTTL p) "") in
  let old := default jwt.ResponsePermission.zero (jwt.Resp (jwt.Perms uc)) in
  let ttl := match ParseDuration (ResponsePermsParams.respTTL p) with
             | Ok v => v
             | Err _ => 0
             end in
  jwt.Resp (jwt.Perms uc') =
    (if setMax || setTTL then
       Some {| jwt.ResponsePermission.MaxMsgs :=
                 if setMax then ResponsePermsParams.respMax p
                 else jwt.ResponsePermission.MaxMsgs old;
               jwt.ResponsePermission.Expires :=
                 if setTTL then ttl else jwt.ResponsePermission.Expires old |}
     else jwt.Resp (jwt.Perms uc)) /\
  store.Details r =
    (if setMax
     then [store.StOK (store.MsgSetMaxResponses (ResponsePermsParams.respMax p))]
     else []) ++
    (if setTTL then [store.StOK (store.MsgSetResponseTTL ttl)] else []) /\
  jwt.Pub (jwt.Perms uc') = jwt.Pub (jwt.Perms uc) /\
  jwt.Sub (jwt.Perms uc') = jwt.Sub (jwt.Perms uc) /\
  jwt.NotBefore uc' = jwt.NotBefore uc /\
  jwt.Expires uc' = jwt.Expires uc /\
  jwt.Tags uc' = jwt.Tags uc.
Proof.
  intros Hrm HR.
  pose proof (Run_keeps_lists p ctx uc) as [HP HS].
  pose proof (Run_keeps_rest p ctx uc) as (HN & HE & HT).
  rewrite HR in HP, HS, HN, HE, HT. cbn zeta in *. cbn [snd] in *.
  split; [|split; [|by repeat split]].
  all: revert HR; unfold ResponsePermsParams.Run, ResponsePermsParams.parseTTL;
    unfold_M; rewrite Hrm;
    destruct uc as [nb ex [pb sb [[m x]|]] tg];
    destruct (max_responses_Changed ctx || negb (ResponsePermsParams.respMax p =? 0));
    destruct (String.eqb (ResponsePermsParams.respTTL p) ""); cbn;
    try (intros [= <- <-]; reflexivity);
    destruct (ParseDuration (ResponsePermsParams.respTTL p)); cbn;
    try discriminate; intros [= <- <-]; reflexivity.
Qed.

(** X4: an edit moves the start and the expiry of the claim only when the
    corresponding flag was changed, whether the edit then succeeds or not. *)
Theorem validity_window_on_request (p : AddUserParams.t) ctx uc :
  let uc' := snd (AddUserParams.editUser p ctx uc) in
  jwt.NotBefore uc' =
    (if IsStartChanged (AddUserParams.time p)
     then StartDate (AddUserParams.time p) else jwt.NotBefore uc) /\
  jwt.Expires uc' =
    (if IsExpiryChanged (AddUserParams.time p)
     then ExpiryDate (AddUserParams.time p) else jwt.Expires uc).
Proof.
  unfold AddUserParams.editUser, AddUserParams.when. unfold_M.
  destruct (IsStartChanged _), (IsExpiryChanged _);
    match goal with
    | |- context [ResponsePermsParams.Run ?q ?c ?u] =>
        pose proof (Run_keeps_rest q c u) as (HN & HE & _);
        destruct (ResponsePermsParams.Run q c u) as [[r|e'] uc1]
    end; cbn zeta in *; cbn [snd] in *; cbn; rewrite ?HN, ?HE; done.
Qed.

(** X5: after a successful edit the tags are what [TagList.Add] made of
    them, in sorted order. *)
Theorem tags_sorted_after_edit (p : AddUserParams.t) ctx uc uc' :
  AddUserParams.editUser p ctx uc = (Ok tt, uc') ->
  jwt.Tags uc' = sort.Strings (TagListAdd (jwt.Tags uc) (AddUserParams.tags p)) /\
  sort.StringsAreSorted (jwt.Tags uc') = true /\
  Permutation (jwt.Tags uc') (TagListAdd (jwt.Tags uc) (AddUserParams.tags p)).
Proof.
  intros H.
  assert (Ht : jwt.Tags uc' =
               sort.Strings (TagListAdd (jwt.Tags uc) (AddUserParams.tags p))).
  { revert H. unfold AddUserParams.editUser, AddUserParams.when. unfold_M.
    destruct (IsStartChanged _), (IsExpiryChanged _);
      match goal with
      | |- context [ResponsePermsParams.Run ?q ?c ?u] =>
          pose proof (Run_keeps_rest q c u) as (_ & _ & HT);
          destruct (ResponsePermsParams.Run q c u) as [[r|e'] uc1]
      end; cbn zeta in *; cbn [snd] in *; try discriminate;
      intros [= <-]; cbn; by rewrite HT. }
  rewrite Ht. split; [done|]. split; [apply Strings_sorted | apply Strings_Permutation].
Qed.

(** X6: what is on the four lists after a successful edit.  On each list,
    what was there is still there; what is there was there before or is
    named by the flags of that very list, so allow flags do not reach the
    deny lists and publish flags do not reach the subscribe lists; and every
    pattern of the list's flags that is not the empty string is there.  A
    list without duplicates stays without duplicates. *)
Theorem lists_after_edit (p : AddUserParams.t) ctx uc uc' :
  AddUserParams.editUser p ctx uc = (Ok tt, uc') ->
  let grown (old new flag both : list string) :=
    forall x : string,
      (In x old -> In x new) /\
      (In x new -> In x old \/ In x flag \/ In x both) /\
      (x <> "" -> In x flag \/ In x both -> In x new) in
  grown (jwt.Allow (jwt.Pub (jwt.Perms uc))) (jwt.Allow (jwt.Pub (jwt.Perms uc')))
        (AddUserParams.allowPubs p) (AddUserParams.allowPubsub p) /\
  grown (jwt.Deny (jwt.Pub (jwt.Perms uc))) (jwt.Deny (jwt.Pub (jwt.Perms uc')))
        (AddUserParams.denyPubs p) (AddUserParams.denyPubsub p) /\
  grown (jwt.Allow (jwt.Sub (jwt.Perms uc))) (jwt.Allow (jwt.Sub (jwt.Perms uc')))
        (AddUserParams.allowSubs p) (AddUserParams.allowPubsub p) /\
  grown (jwt.Deny (jwt.Sub (jwt.Perms uc))) (jwt.Deny (jwt.Sub (jwt.Perms uc')))
        (AddUserParams.denySubs p) (AddUserParams.denyPubsub p) /\
  (NoDup (jwt.Allow (jwt.Pub (jwt.Perms uc))) ->
   NoDup (jwt.Allow (jwt.Pub (jwt.Perms uc')))) /\
  (NoDup (jwt.Deny (jwt.Pub (jwt.Perms uc))) ->
   NoDup (jwt.Deny (jwt.Pub (jwt.Perms uc')))) /\
  (NoDup (jwt.Allow (jwt.Sub (jwt.Perms uc))) ->
   NoDup (jwt.Allow (jwt.Sub (jwt.Perms uc')))) /\
  (NoDup (jwt.Deny (jwt.Sub (jwt.Perms uc))) ->
   NoDup (jwt.Deny (jwt.Sub (jwt.Perms uc')))).
Proof.
  intros H. apply editUser_lists in H as (HPA & HPD & HSA & HSD). cbn zeta in *.
  assert (Hnd : forall l a b : list string,
             NoDup l ->
             NoDup (sort.Strings (StringList.Add (StringList.Add l a) b))).
  { intros l a b Hl. rewrite Strings_Permutation. by do 2 apply Add_NoDup. }
  assert (Hmem : forall (l a b : list string) (x : string),
             (In x l -> In x (sort.Strings (StringList.Add (StringList.Add l a) b))) /\
             (In x (sort.Strings (StringList.Add (StringList.Add l a) b)) ->
              In x l \/ In x a \/ In x b) /\
             (x <> "" -> In x a \/ In x b ->
              In x (sort.Strings (StringList.Add (StringList.Add l a) b)))).
  { intros l a b x. rewrite !In_Strings, !In_Add. tauto. }
  rewrite HPA, HPD, HSA, HSD.
  repeat match goal with
         | |- _ /\ _ => split
         end; try apply Hnd; intros x; apply Hmem.
Qed.

(** X7: the four lists after a successful edit depend only on which patterns
    are given for each list: not on their order, not on repetitions, and not
    on whether the single or the combined flag carried them. *)
Theorem lists_depend_on_pattern_sets (p q : AddUserParams.t) ctx uc ucp ucq :
  (forall x, In x (AddUserParams.allowPubs p) \/ In x (AddUserParams.allowPubsub p) <->
             In x (AddUserParams.allowPubs q) \/ In x (AddUserParams.allowPubsub q)) ->
  (forall x, In x (AddUserParams.denyPubs p) \/ In x (AddUserParams.denyPubsub p) <->
             In x (AddUserParams.denyPubs q) \/ In x (AddUserParams.denyPubsub q)) ->
  (forall x, In x (AddUserParams.allowSubs p) \/ In x (AddUserParams.allowPubsub p) <->
             In x (AddUserParams.allowSubs q) \/ In x (AddUserParams.allowPubsub q)) ->
  (forall x, In x (AddUserParams.denySubs p) \/ In x (AddUserParams.denyPubsub p) <->
             In x (AddUserParams.denySubs q) \/ In x (AddUserParams.denyPubsub q)) ->
  AddUserParams.editUser p ctx uc = (Ok tt, ucp) ->
  AddUserParams.editUser q ctx uc = (Ok tt, ucq) ->
  jwt.Pub (jwt.Perms ucq) = jwt.Pub (jwt.Perms ucp) /\
  jwt.Sub (jwt.Perms ucq) = jwt.Sub (jwt.Perms ucp).
Proof.
  intros HPA HPD HSA HSD Hp Hq.
  apply editUser_lists in Hp as (Hp1 & Hp2 & Hp3 & Hp4).
  apply editUser_lists in Hq as (Hq1 & Hq2 & Hq3 & Hq4). cbn zeta in *.
  assert (Hsame : forall l a b a' b' : list string,
             (forall x, In x a \/ In x b <-> In x a' \/ In x b') ->
             sort.Strings (StringList.Add (StringList.Add l a) b) =
             sort.Strings (StringList.Add (StringList.Add l a') b')).
  { intros l a b a' b' Hab. rewrite !Add_app.
    apply Strings_Permutation_eq, Add_Permutation.
    intros x. rewrite !in_app_iff. apply Hab. }
  rewrite (Hsame _ _ _ _ _ HPA) in Hp1. rewrite (Hsame _ _ _ _ _ HPD) in Hp2.
  rewrite (Hsame _ _ _ _ _ HSA) in Hp3. rewrite (Hsame _ _ _ _ _ HSD) in Hp4.
  rewrite <- Hq1 in Hp1. rewrite <- Hq2 in Hp2.
  rewrite <- Hq3 in Hp3. rewrite <- Hq4 in Hp4.
  destruct (jwt.Pub (jwt.Perms ucq)), (jwt.Pub (jwt.Perms ucp)),
    (jwt.Sub (jwt.Perms ucq)), (jwt.Sub (jwt.Perms ucp)).
  cbn in *. by subst.
Qed.

End WithLibrary.
End EditMore.

(** ** add account: more on validation and on what is written *)

Module AddAccountMore.
Import AddAccount AddAccountFacts.

(** Case analysis on every call whose answer decides the run. *)
Ltac split_run :=
  repeat match goal with
         | |- context [match ?x with _ => _ end] =>
             lazymatch x with
             | context [match _ with _ => _ end] => fail
             | _ => destruct x eqn:?; cbn
             end
         end.

Ltac split_run_in H :=
  repeat match type of H with
         | context [match ?x with _ => _ end] =>
             lazymatch x with
             | context [match _ with _ => _ end] => fail
             | _ => destruct x eqn:?; cbn in H
             end
         end.

Section WithEnv.
Context {env : Env}.

(** X8: [Validate] only reads.  Whatever it answers, the store and the key
    ring are as they were and no call it makes signs or writes; when it
    fails the command fails with the same error and there it ends. *)
Theorem Validate_only_reads (p : Params) (w : World) :
  let w' := snd (Validate p w) in
  ngsStore w' = ngsStore w /\
  keyring w' = keyring w /\
  (exists evs, trace w' = trace w ++ evs /\
               Forall (fun ev => isSigning ev = false /\ isWrite ev = false) evs) /\
  (forall e, fst (Validate p w) = Err e -> RunE p w = (Err e, w')).
Proof.
  cbn zeta. split; [|split; [|split]].
  4: { intros e He. unfold RunE, bind.
       destruct (Validate p w) as [[p'|e'] w'']; cbn in *; congruence. }
  all: unfold Validate, getStore, has, getContext, resolveKey, createAccount, wrap;
    unfold_M; cbn; split_run; try congruence.
  all: rewrite <- ?app_assoc; eexists; split; [reflexivity|]; by repeat constructor.
Qed.

(** X9: a successful [add account] has found the name free, has signed the
    claims, with the account's public key as subject, with the operator key
    resolved from [--private-key], and has put that one token into the store
    under the name it decodes to; every other record is as it was.  With
    [--generate-nkeys] the account key is the generated one, it is saved in
    the key ring and its path is what the command prints; without it the
    account key is resolved from [--public-key] and the key ring is as it
    was. *)
Theorem successful_add_writes_one_claim (p : Params) (w w' : World) (out : Output) :
  RunE p w = (Ok out, w') ->
  exists (s : Store) (c : Context) (okp akp : nkeys.KeyPair) (pk token name : string),
    ngsStore w = Ok s /\
    Has s (Name (claims p)) = false /\
    GetContext s = Ok c /\
    ResolveKey c nkeys.PrefixByteOperator KeyPathFlag = Ok okp /\
    nkeys.PublicKey akp = Ok pk /\
    Encode {| Name := Name (claims p); Subject := pk |} okp = Ok token /\
    ClaimName token = Ok name /\
    ngsStore w' = Ok {| InfoName := InfoName s;
                        Accounts := <[name := token]> (Accounts s) |} /\
    (if generate p
     then CreateAccount = Ok akp /\
          exists path, KeyFile (InfoName s) (Name (claims p)) akp = Ok path /\
                       keyring w' = <[path := akp]> (keyring w) /\
                       out = GeneratedAccountKey path
     else ResolveKey c nkeys.PrefixByteAccount (accountKeyPath p) = Ok akp /\
          keyring w' = keyring w /\ out = AddedAccount (Name (claims p))).
Proof.
  intros H.
  unfold RunE, Validate, Run, getStore, has, getContext, resolveKey, createAccount,
    encode, storeClaim, keyStoreStore, wrap, deref in H.
  unfold bind, modify, ret, fail, lift in H. cbn in H.
  split_run_in H; try discriminate.
  all: injection H as <- <-.
  all: repeat match goal with
              | H : Ok _ = Ok _ |- _ => injection H as ?; subst
              | H : Err _ = Ok _ |- _ => discriminate H
              | H : Ok _ = Err _ |- _ => discriminate H
              end.
  all: do 7 eexists; cbn.
  all: repeat match goal with
              | |- _ /\ _ => split
              | |- exists _, _ => eexists
              end; try eassumption; try reflexivity.
Qed.

(** X10: where the account key comes from.  Without [--generate-nkeys] no
    key is generated and the key ring is never written, however the run
    ends; with it, the account key is never resolved from a path. *)
Theorem account_key_source (p : Params) (w : World) :
  let w' := snd (RunE p w) in
  let made := drop (length (trace w)) (trace w') in
  (generate p = false ->
   keyring w' = keyring w /\
   ~ In EvCreateAccount made /\
   forall n, ~ In (EvKeyStoreStore n) made) /\
  (generate p = true ->
   forall path, ~ In (EvResolveKey nkeys.PrefixByteAccount path) made).
Proof.
  cbn zeta. split; intros Hgen.
  all: unfold RunE, Validate, Run, getStore, has, getContext, resolveKey,
         createAccount, encode, storeClaim, keyStoreStore, wrap, deref;
       unfold_M; cbn; rewrite ?Hgen, ?andb_false_r; cbn; split_run;
       rewrite <- ?app_assoc, ?drop_app_length; cbn.
  all: try congruence.
  all: repeat split; try reflexivity; try (intros n); try (intros path);
       intuition discriminate.
Qed.

(** X11: when [add account] fails, the key ring is as it was, and so is the
    store, with one exception: under [--generate-nkeys] the claim is stored
    before the generated key is saved; if saving the key fails, that error
    is returned and the claim stays in the store. *)
Theorem failed_add_and_the_store (p : Params) (w w' : World) (e : error) :
  RunE p w = (Err e, w') ->
  keyring w' = keyring w /\
  (ngsStore w' = ngsStore w \/
   generate p = true /\
   exists (s : Store) (akp : nkeys.KeyPair) (token name : string),
     ngsStore w = Ok s /\
     CreateAccount = Ok akp /\
     KeyFile (InfoName s) (Name (claims p)) akp = Err e /\
     ClaimName token = Ok name /\
     ngsStore w' = Ok {| InfoName := InfoName s;
                         Accounts := <[name := token]> (Accounts s) |}).
Proof.
  intros H.
  unfold RunE, Validate, Run, getStore, has, getContext, resolveKey, createAccount,
    encode, storeClaim, keyStoreStore, wrap, deref in H.
  unfold bind, modify, ret, fail, lift in H. cbn in H.
  split_run_in H; try discriminate.
  all: injection H as <- <-; cbn.
  all: repeat match goal with
              | H : Ok _ = Ok _ |- _ => injection H as ?; subst
              | H : Err _ = Err _ |- _ => injection H as ?; subst
              | H : Err _ = Ok _ |- _ => discriminate H
              | H : Ok _ = Err _ |- _ => discriminate H
              end.
  all: split; [reflexivity|].
  all: first [ left; cbn; congruence
             | right; split; [assumption|];
               do 4 eexists; repeat split; try eassumption; reflexivity ].
Qed.

End WithEnv.
End AddAccountMore.

(** ** add user: more on the report *)

Module AddUserMore.
Import AddUser AddUserFacts.

Lemma In_Details_Add (r : store.Report) (s x : store.Status) :
  In x (store.Details (store.Add r s)) <-> In x (store.Details r) \/ x = s.
Proof. rewrite Details_Add, in_app_iff. cbn. intuition. Qed.

Section WithEnv.
Context {env : Env}.

(** X12: the top-level error of [Run] is the error of [StoreKeys] and no
    other: when the keys cannot be stored nothing else is tried and no
    report is returned; in every other case [Run] answers a report and no
    error, whatever went wrong on the way. *)
Theorem Run_error_is_StoreKeys_error (p : Params) ctx (w : Store * KeyStore) :
  let o := Run p ctx w in
  let sk := StoreKeys (entity p) (accountName p) w in
  err o = fst sk /\
  (forall e, fst sk = Some e ->
             status o = None /\ world o = snd sk /\ params o = p) /\
  (fst sk = None -> exists r, status o = Some (store.AsStatus r)).
Proof.
  cbn zeta. unfold Run.
  destruct (StoreKeys (entity p) (accountName p) w) as [[e|] w1]; cbn [fst snd].
  - split; [reflexivity|]. split; [|discriminate]. by intros e' [= <-].
  - destruct (GenerateClaim _ _ _ _) as [[rs e] w2].
    destruct (HasPrivateKey _ _); [destruct (GenerateConfig _ _ _ _) as [d|e'];
      [destruct (MaybeStoreUserCreds _ _ _ _) as [[path [e''|]] ks']|]|];
      cbn; (split; [reflexivity|]); (split; [discriminate|]);
      intros _; eexists; reflexivity.
Qed.

(** X13: a failure to make the claim is an entry of the report, not a
    top-level error: [Run] goes on to the creds file all the same, and the
    report it returns has errors. *)
Theorem claim_failure_is_reported (p : Params) ctx (w w1 w2 : Store * KeyStore)
        (rs : option store.Status) (e : error) :
  StoreKeys (entity p) (accountName p) w = (None, w1) ->
  GenerateClaim (entity p) (signerKP p) ctx w1 = ((rs, Some e), w2) ->
  let o := Run p ctx w in
  err o = None /\
  exists r : store.Report,
    status o = Some (store.AsStatus r) /\
    In (store.StErr (store.MsgFromError e)) (store.Details r) /\
    store.HasNoErrors r = false.
Proof.
  intros HSK HGC o. subst o. unfold Run. rewrite HSK, HGC.
  set (r0 := addIfStatus (store.AddFromError _ e) rs).
  assert (H0 : In (store.StErr (store.MsgFromError e)) (store.Details r0) /\
               store.HasNoErrors r0 = false).
  { subst r0. unfold addIfStatus, store.AddFromError.
    destruct rs as [s|]; rewrite ?HasNoErrors_Add, ?In_Details_Add; cbn;
      rewrite ?andb_false_r; auto. }
  destruct H0 as [Hin Herr].
  assert (Hkeep : forall (r : store.Report) s,
             In (store.StErr (store.MsgFromError e)) (store.Details r) /\
             store.HasNoErrors r = false ->
             In (store.StErr (store.MsgFromError e)) (store.Details (store.Add r s)) /\
             store.HasNoErrors (store.Add r s) = false).
  { intros r s [Hi He]. rewrite HasNoErrors_Add, In_Details_Add, He. auto. }
  set (r1 := if generated (entity p) then _ else r0).
  assert (H1 : In (store.StErr (store.MsgFromError e)) (store.Details r1) /\
               store.HasNoErrors r1 = false).
  { subst r1. destruct (generated (entity p)); [apply Hkeep|]; done. }
  destruct (HasPrivateKey _ _); [destruct (GenerateConfig _ _ _ _) as [d|e'];
      [destruct (MaybeStoreUserCreds _ _ _ _) as [[path [e''|]] ks']|]|].
  all: match goal with
       | |- context [store.HasNoErrors ?r] =>
           destruct (Hkeep _ _ H1 : In _ (store.Details r) /\ store.HasNoErrors r = false)
             as [Hi He]; rewrite He
       end.
  all: cbn [err status]; split; [reflexivity|]; eexists; by repeat split.
Qed.

(** X14: after [GenerateClaim] the claim store is not written again,
    however the run ends; and without the user's private key in the key
    ring the creds file is skipped: the key store and the recorded creds
    path are as they were and the report says so. *)
Theorem creds_are_skipped_without_private_key
        (p : Params) ctx (w w1 w2 : Store * KeyStore)
        (x : option store.Status * option error) :
  StoreKeys (entity p) (accountName p) w = (None, w1) ->
  GenerateClaim (entity p) (signerKP p) ctx w1 = (x, w2) ->
  let o := Run p ctx w in
  fst (world o) = fst w2 /\
  (HasPrivateKey (snd w2) (publicKeyOf p) = false ->
   world o = w2 /\
   params o = p /\
   exists r, status o = Some (store.AsStatus r) /\
             In (store.StOK store.MsgSkippedCredsFile) (store.Details r)).
Proof.
  intros HSK HGC o. subst o. unfold Run. rewrite HSK, HGC. destruct x as [rs e].
  destruct (HasPrivateKey _ _); [destruct (GenerateConfig _ _ _ _) as [d|e'];
      [destruct (MaybeStoreUserCreds _ _ _ _) as [[path [e''|]] ks']|]|];
    cbn [world params status fst snd]; (split; [reflexivity|]); try discriminate.
  intros _. split; [by destruct w2|]. split; [reflexivity|].
  eexists. split; [reflexivity|].
  destruct (store.HasNoErrors _); unfold store.AddOK;
    rewrite ?In_Details_Add; auto.
Qed.

(** A report of [Run] that has no errors has the added-user line last. *)
Lemma clean_report_last (p : Params) ctx (w : Store * KeyStore) (r : store.Report) :
  status (Run p ctx w) = Some (store.AsStatus r) ->
  store.HasNoErrors r = true ->
  last (store.Details r) =
    Some (store.StOK (store.MsgAddedUser (name (entity p)) (accountName p))).
Proof.
  unfold Run.
  destruct (StoreKeys _ _ _) as [[e|] w1]; [discriminate|].
  destruct (GenerateClaim _ _ _ _) as [[rs e] w2].
  assert (Hfin : forall r3 : store.Report,
             Some (store.AsStatus
                     (if store.HasNoErrors r3
                      then store.AddOK r3 (store.MsgAddedUser (name (entity p))
                                                             (accountName p))
                      else r3)) = Some (store.AsStatus r) ->
             store.HasNoErrors r = true ->
             last (store.Details r) =
               Some (store.StOK (store.MsgAddedUser (name (entity p)) (accountName p)))).
  { intros r3 Heq Hclean. injection Heq as Hopt Hdet.
    unfold store.HasNoErrors in Hclean. rewrite <- Hdet in *.
    destruct (store.HasNoErrors r3) eqn:H3.
    - unfold store.AddOK. rewrite Details_Add. apply last_snoc.
    - unfold store.HasNoErrors in H3. congruence. }
  destruct (HasPrivateKey _ _); [destruct (GenerateConfig _ _ _ _) as [d|e'];
      [destruct (MaybeStoreUserCreds _ _ _ _) as [[path [e''|]] ks']|]|];
    cbn [status]; apply Hfin.
Qed.

(** X15: a report without errors ends with the line that the user was
    added. *)
Theorem clean_report_ends_with_added_user (p : Params) ctx (w : Store * KeyStore)
        (r : store.Report) :
  status (Run p ctx w) = Some (store.AsStatus r) ->
  store.HasNoErrors r = true ->
  last (store.Details r) =
    Some (store.StOK (store.MsgAddedUser (name (entity p)) (accountName p))).
Proof. exact (clean_report_last p ctx w r). Qed.

(** X16: when everything works (the keys are stored, the claim is made
    without error, the private key is in the key ring, the creds are made
    and written) the path of the creds file is recorded in the parameters,
    the key store is the one the write left, and the report has a line for
    the creds file; if the status of the claim has no errors the report has
    none and ends with the line that the user was added. *)
Theorem creds_written_on_success (p : Params) ctx (w w1 w2 : Store * KeyStore)
        (rs : option store.Status) (d path : string) (ks' : KeyStore) :
  StoreKeys (entity p) (accountName p) w = (None, w1) ->
  GenerateClaim (entity p) (signerKP p) ctx w1 = ((rs, None), w2) ->
  HasPrivateKey (snd w2) (publicKeyOf p) = true ->
  GenerateConfig (fst w2) (accountName p) (name (entity p)) (kp (entity p)) = Ok d ->
  MaybeStoreUserCreds (accountName p) (name (entity p)) d (snd w2) = ((path, None), ks') ->
  let o := Run p ctx w in
  err o = None /\
  credsFilePath (params o) = path /\
  world o = (fst w2, ks') /\
  exists r : store.Report,
    status o = Some (store.AsStatus r) /\
    In (store.StOK (store.MsgGeneratedCredsFile (AbbrevHomePaths path)))
       (store.Details r) /\
    ((forall s, rs = Some s -> store.StatusOK s = true) ->
     store.HasNoErrors r = true /\
     last (store.Details r) =
       Some (store.StOK (store.MsgAddedUser (name (entity p)) (accountName p)))).
Proof.
  intros HSK HGC HHas HGen HSt o.
  pose proof (clean_report_last p ctx w) as Hlast.
  subst o. unfold Run in *. rewrite HSK, HGC, HHas, HGen, HSt in *.
  cbn [err params world credsFilePath setCredsFilePath status] in *.
  split; [reflexivity|]. split; [reflexivity|]. split; [reflexivity|].
  eexists. split; [reflexivity|]. split.
  - destruct (store.HasNoErrors _); unfold store.AddOK;
      rewrite ?In_Details_Add; auto.
  - intros Hrs.
    match goal with
    | |- store.HasNoErrors (if store.HasNoErrors ?r3 then _ else _) = true /\ _ =>
        assert (H3 : store.HasNoErrors r3 = true)
    end.
    { unfold store.AddOK, addIfStatus.
      destruct rs as [s|], (generated (entity p));
        rewrite ?HasNoErrors_Add, ?(Hrs _ eq_refl); reflexivity. }
    assert (Hclean : forall r3 m, store.HasNoErrors r3 = true ->
                store.HasNoErrors (if store.HasNoErrors r3
                                   then store.AddOK r3 m else r3) = true).
    { intros r3 m Hr. rewrite Hr. unfold store.AddOK.
      by rewrite HasNoErrors_Add, Hr. }
    split; [by apply Hclean|]. apply Hlast; [reflexivity | by apply Hclean].
Qed.

End WithEnv.
End AddUserMore.

(** ** create account: what is written, and under which name *)

Module CreateAccountMore.
Import CreateAccount CreateAccountFacts.
Import AddAccountMore.

Ltac open_RunE H :=
  unfold RunE, Validate, Run, createStore, mkdirAll, writeFile, mapErr, deref in H;
  unfold bind, modify, ret, fail, lift in H; cbn in H.

Ltac same_results :=
  repeat match goal with
         | H : Ok _ = Ok _ |- _ => injection H as ?; subst
         | H : Err _ = Err _ |- _ => injection H as ?; subst
         | H : Some _ = Some _ |- _ => injection H as ?; subst
         | H : Err _ = Ok _ |- _ => discriminate H
         | H : Ok _ = Err _ |- _ => discriminate H
         | H : None = Some _ |- _ => discriminate H
         | H : Some _ = None |- _ => discriminate H
         end.

Section WithEnv.
Context {env : Env}.




(** X20: the name and the directory of the new account.  The name is the
    flag [--name], or the base name of the directory when the flag is
    empty.  The directory is the argument, or [.] without arguments, or
    empty with more than one; it is joined to the working directory only
    when the working directory itself is not absolute. *)
Theorem name_and_directory (nameFlag : string) (args : list string)
        (w w' : World) (p' : Params) :
  RunE nameFlag args w = (Ok p', w') ->
  name p' = (if String.eqb nameFlag "" then Base (dir p') else nameFlag) /\
  exists wd, Getwd = Ok wd /\
             let given := match args with
                          | [] => "."
                          | [a] => a
                          | _ => ""
                          end in
             dir p' = if IsAbs wd then given else Join wd given.
Proof.
  intros H. open_RunE H.
  destruct args as [|a [|b args]]; cbn in H.
  all: split_run_in H; same_results.
  all: injection H as Hres Hworld; same_results; subst; cbn.
  all: repeat match goal with
              | H : negb _ = _ |- _ => apply (f_equal negb) in H;
                                       rewrite negb_involutive in H; cbn in H
              end.
  all: split; [try reflexivity | eexists; split; [reflexivity|]; cbn;
                                 repeat match goal with
                                        | H : IsAbs _ = _ |- _ => rewrite H
                                        end; reflexivity].
Qed.

End WithEnv.
End CreateAccountMore.

(** ** add user: validation, and the interactive edit *)

Module ValidateFacts.
Import AddUserValidate.
Import AddAccountMore.

Section WithEnv.
Context {env : Env} {lib : Library}.

(** X21: what [Validate] of [add user] does with the name.  An empty name is
    refused before anything else is checked, and then the usage text is
    switched back on.  With a name, [Validate] itself does not write the
    command: a refusal is an error handed up by one of the checks, and the
    command is as the two checks that are given the context leave it,
    untouched when they leave it alone.  When [Validate] accepts, the name
    was not empty, the name [*] has been replaced by a random name and any
    other name is kept; the response flags have been accepted, so the edit
    of the user claim that follows cannot fail. *)
Theorem Validate_and_the_name (p : Params) (cmd : Cmd) :
  let r := Validate p cmd in
  (name p = "" ->
   fst r = Err UserNameRequired /\ SilenceUsage (snd r) = false) /\
  (name p <> "" ->
   fst r <> Err UserNameRequired /\
   (snd r = snd (AccountContextValidate cmd) \/
    snd r = snd (SignerResolve (snd (AccountContextValidate cmd)))) /\
   ((forall c, snd (AccountContextValidate c) = c) ->
    (forall c, snd (SignerResolve c) = c) ->
    snd r = cmd)) /\
  (forall p', fst r = Ok p' ->
     name p <> "" /\
     name p' = (if String.eqb (name p) "*" then GetRandomName 0 else name p) /\
     time p' = time p /\ resp p' = resp p /\
     ResponsePermsParams.Validate (resp p') = None /\
     forall (ap : AddUserParams.t) ctx uc,
       AddUserParams.resp ap = resp p' ->
       fst (AddUserParams.editUserClaim ap (jwt.User uc) ctx) = Ok tt).
Proof.
  cbn zeta. unfold Validate.
  destruct (String.eqb_spec (name p) "") as [Hempty|Hname].
  - split; [done|]. split; [done|]. intros p' [=].
  - split; [done|].
    set (p1 := if String.eqb (name p) "*" then _ else p).
    assert (H1 : name p1 = (if String.eqb (name p) "*" then GetRandomName 0 else name p)
                 /\ time p1 = time p /\ resp p1 = resp p).
    { subst p1. by destruct (String.eqb (name p) "*"). }
    destruct H1 as (Hn & Ht & Hr).
    assert (Hkeep : forall c1 c2 : Cmd,
               c1 = snd (AccountContextValidate cmd) ->
               (c2 = c1 \/ c2 = snd (SignerResolve c1)) ->
               (c2 = snd (AccountContextValidate cmd) \/
                c2 = snd (SignerResolve (snd (AccountContextValidate cmd)))) /\
               ((forall c, snd (AccountContextValidate c) = c) ->
                (forall c, snd (SignerResolve c) = c) -> c2 = cmd)).
    { intros c1 c2 -> Hc2. split; [done|]. intros HA HS.
      destruct Hc2 as [-> | ->]; by rewrite ?HS, ?HA. }
    destruct (AccountContextValidate cmd) as [[e|] c1] eqn:HA; cbn [fst snd] in *.
    { split; [|done]. intros _. split; [done|]. apply (Hkeep c1 c1); auto. }
    destruct (SignerResolve c1) as [[e|] c2] eqn:HS; cbn [fst snd] in *.
    { split; [|done]. intros _. split; [done|].
      apply (Hkeep c1 c2); [done|]. right. by rewrite HS. }
    assert (Hc2 : c2 = c1 \/ c2 = snd (SignerResolve c1)) by (right; by rewrite HS).
    destruct (TimeValidate (time p1)).
    { split; [|done]. intros _. split; [done|]. by apply (Hkeep c1 c2). }
    destruct (ResponsePermsParams.Validate (resp p1)) eqn:HV.
    { split; [|done]. intros _. split; [done|]. by apply (Hkeep c1 c2). }
    destruct (EntityValid (name p1)).
    { split; [|done]. intros _. split; [done|]. by apply (Hkeep c1 c2). }
    cbn [fst snd]. split.
    { intros _. split; [done|]. by apply (Hkeep c1 c2). }
    intros p' [= <-]. repeat split; try done.
    intros ap ctx uc Hap.
    apply (proj2 (EditMore.edit_after_Validate (resp p1) HV ctx uc) ap Hap).
Qed.

End WithEnv.
End ValidateFacts.

Module PromptFacts.
Import ResponsePermsEdit.
Import AddAccountMore.

Section WithPrompter.
Context {prompter : Prompter} {lib : Library}.

(** X22: the interactive edit changes only what the answers reach.  When the
    first question is declined, or fails, the parameters are as they were.
    Without a response permission on the claim the removal is not asked for
    and [rmResp] keeps its value.  When the edit ends with removal chosen,
    the maximum and the TTL were not asked for and keep their values. *)
Theorem Edit_changes_what_is_answered (p : ResponsePermsParams.t) (hasPerm : bool) :
  let r := Edit p hasPerm in
  (fst (ConfirmResponse hasPerm) = false \/ snd (ConfirmResponse hasPerm) <> None ->
   snd r = p /\ fst r = snd (ConfirmResponse hasPerm)) /\
  (hasPerm = false ->
   ResponsePermsParams.rmResp (snd r) = ResponsePermsParams.rmResp p) /\
  (ResponsePermsParams.rmResp (snd r) = true ->
   ResponsePermsParams.respMax (snd r) = ResponsePermsParams.respMax p /\
   ResponsePermsParams.respTTL (snd r) = ResponsePermsParams.respTTL p).
Proof.
  cbn zeta. unfold Edit.
  destruct (ConfirmResponse hasPerm) as [[|] [e|]]; cbn [fst snd].
  all: try (split; [by intros _|]; split; [done|]; done).
  all: try (split; [by intros [?|?]|]; split; [done|]; done).
  split; [intros [?|?]; done|].
  destruct hasPerm; cbn.
  - destruct (ConfirmDelete (ResponsePermsParams.rmResp p)) as [v [e|]]; cbn.
    + split; [done|]. done.
    + split; [done|]. destruct v; cbn; [done|].
      destruct (PromptMax _ _) as [s [e|]]; cbn; [done|].
      destruct (PromptTTL _ _) as [ttl [e|]]; cbn; done.
  - split.
    + intros _. destruct (ResponsePermsParams.rmResp p) eqn:Hrm; cbn; [done|].
      destruct (PromptMax _ _) as [s [e|]]; cbn; [done|].
      destruct (PromptTTL _ _) as [ttl [e|]]; cbn; done.
    + destruct (ResponsePermsParams.rmResp p) eqn:Hrm; cbn; [done|].
      destruct (PromptMax _ _) as [s [e|]]; cbn; [by rewrite Hrm|].
      destruct (PromptTTL _ _) as [ttl [e|]]; cbn; by rewrite Hrm.
Qed.

End WithPrompter.
End PromptFacts.

(** ** The further properties on the scenarios *)

Module MoreWitnesses.

Definition ctx0 : ActionCtx := mkActionCtx false.

(** [--response-ttl 5s] passes [Validate]; the edit goes through. *)
Lemma Validate_guards_the_edit_witness :
  fst (AddUserParams.editUserClaim (lib := Examples.library)
         (Scenarios.flagsWith Scenarios.ttlOnly ["a"] [] [])
         (jwt.User Examples.emptyClaims) ctx0) = Ok tt.
Proof.
  destruct (EditMore.Validate_guards_the_edit (lib := Examples.library)
              Scenarios.ttlOnly eq_refl ctx0 Examples.emptyClaims) as [_ Hedit].
  exact (proj2 (Hedit (Scenarios.flagsWith Scenarios.ttlOnly ["a"] [] []) eq_refl)).
Defined.

(** [--allow-pub a --allow-pub-response=3 --response-ttl soon]: the edit
    fails and [a] is not on the list. *)
Lemma failed_edit_keeps_lists_witness :
  let r := AddUserParams.editUser (lib := Examples.library)
             (Scenarios.flagsWith Scenarios.badTTL ["a"] [] ["t"])
             ctx0 Examples.emptyClaims in
  fst r = Err (External "time: invalid duration") /\
  jwt.Allow (jwt.Pub (jwt.Perms (snd r))) = [] /\
  jwt.Tags (snd r) = [].
Proof.
  cbn zeta.
  destruct (EditMore.failed_edit_keeps_lists (lib := Examples.library)
              (Scenarios.flagsWith Scenarios.badTTL ["a"] [] ["t"]) ctx0
              Examples.emptyClaims _ (External "time: invalid duration") eq_refl)
    as (_ & HP & _ & HT).
  split; [reflexivity|]. split; [exact (f_equal jwt.Allow HP) | exact HT].
Defined.

(** [--allow-pub-response=2] on a claim that allows five responses within
    three seconds: the maximum is two, the three seconds stay. *)
Lemma Run_sets_what_is_asked_witness :
  jwt.Resp (jwt.Perms (snd (ResponsePermsParams.Run (lib := Examples.library)
                              Scenarios.maxOnly ctx0 Scenarios.fiveInThree))) =
  Some {| jwt.ResponsePermission.MaxMsgs := 2;
          jwt.ResponsePermission.Expires := 3000000000 |}.
Proof.
  destruct (EditMore.Run_sets_what_is_asked (lib := Examples.library)
              Scenarios.maxOnly ctx0 Scenarios.fiveInThree _ _ eq_refl eq_refl)
    as [HResp _].
  exact HResp.
Defined.

Lemma tags_sorted_after_edit_witness :
  jwt.Tags (snd (AddUserParams.editUser (lib := Examples.library)
                   (Scenarios.flagsWith Scenarios.noResponse [] [] ["b"; "a"])
                   ctx0 Examples.emptyClaims)) = ["a"; "b"].
Proof.
  destruct (EditMore.tags_sorted_after_edit (lib := Examples.library)
              (Scenarios.flagsWith Scenarios.noResponse [] [] ["b"; "a"])
              ctx0 Examples.emptyClaims _ eq_refl) as [Ht _].
  exact Ht.
Defined.

Lemma lists_after_edit_witness :
  let uc' := snd (AddUserParams.editUser (lib := Examples.library)
                    Scenarios.oneWay ctx0 Examples.emptyClaims) in
  In "bar" (jwt.Allow (jwt.Sub (jwt.Perms uc'))) /\
  ~ In "zed" (jwt.Allow (jwt.Sub (jwt.Perms uc'))) /\
  ~ In "zed" (jwt.Deny (jwt.Pub (jwt.Perms uc'))) /\
  NoDup (jwt.Allow (jwt.Pub (jwt.Perms uc'))).
Proof.
  cbn zeta.
  destruct (EditMore.lists_after_edit (lib := Examples.library)
              Scenarios.oneWay ctx0 Examples.emptyClaims _ eq_refl)
    as (_ & HPD & HSA & _ & Hnd & _).
  destruct (HSA "bar") as (_ & _ & Hbar).
  destruct (HSA "zed") as (_ & Hzs & _).
  destruct (HPD "zed") as (_ & Hzd & _).
  split; [apply Hbar; [discriminate | cbn; tauto]|].
  split; [intros Hin; apply Hzs in Hin; cbn in Hin; intuition discriminate|].
  split; [intros Hin; apply Hzd in Hin; cbn in Hin; intuition discriminate|].
  apply Hnd. constructor.
Defined.

Lemma lists_depend_on_pattern_sets_witness :
  let uc1 := snd (AddUserParams.editUser (lib := Examples.library)
                    Scenarios.oneWay ctx0 Examples.emptyClaims) in
  let uc2 := snd (AddUserParams.editUser (lib := Examples.library)
                    Scenarios.otherWay ctx0 Examples.emptyClaims) in
  jwt.Pub (jwt.Perms uc2) = jwt.Pub (jwt.Perms uc1) /\
  jwt.Sub (jwt.Perms uc2) = jwt.Sub (jwt.Perms uc1).
Proof.
  cbn zeta.
  apply (EditMore.lists_depend_on_pattern_sets (lib := Examples.library)
           Scenarios.oneWay Scenarios.otherWay ctx0 Examples.emptyClaims _ _);
    try reflexivity; intros x; cbn; tauto.
Defined.

(** Account [A] exists: [Validate] fails, nothing is signed or written. *)
Lemma Validate_only_reads_witness :
  let r := AddAccount.RunE (env := Examples.addAccountEnv) Examples.addA
             Examples.worldWithA in
  fst r = Err (ErrAccountExists "A") /\
  AddAccount.ngsStore (snd r) = AddAccount.ngsStore Examples.worldWithA.
Proof.
  cbn zeta.
  destruct (AddAccountMore.Validate_only_reads (env := Examples.addAccountEnv)
              Examples.addA Examples.worldWithA) as (Hst & _ & _ & Hfail).
  rewrite (Hfail (ErrAccountExists "A") eq_refl). split; [reflexivity | exact Hst].
Defined.

Lemma successful_add_writes_one_claim_witness :
  exists s token,
    AddAccount.ngsStore
      (snd (AddAccount.RunE (env := Examples.addAccountEnv) Examples.addA
              Examples.freshWorld)) = Ok s /\
    AddAccount.Accounts s = <["A" := token]> ∅.
Proof.
  destruct (AddAccountMore.successful_add_writes_one_claim
              (env := Examples.addAccountEnv) Examples.addA Examples.freshWorld
              _ _ eq_refl)
    as (s & c & okp & akp & pk & token & name
        & Hs & _ & _ & _ & _ & Henc & Hname & Hst & _).
  injection Hs as <-. cbn in Henc, Hname.
  injection Henc as <-. injection Hname as <-.
  eexists _, _. split; [exact Hst | reflexivity].
Defined.

Lemma account_key_source_witness :
  AddAccount.keyring
    (snd (AddAccount.RunE (env := Examples.addAccountEnv) Examples.addA
            Examples.freshWorld)) = ∅.
Proof.
  destruct (AddAccountMore.account_key_source (env := Examples.addAccountEnv)
              Examples.addA Examples.freshWorld) as [Hno _].
  destruct (Hno eq_refl) as [Hk _]. exact Hk.
Defined.

(** [add account --name A --generate-nkeys] when the key file cannot be
    written: the command fails, account [A] is in the store. *)
Lemma failed_add_and_the_store_witness :
  let r := AddAccount.RunE (env := Scenarios.keyFileFails) Scenarios.addAGenerate
             Examples.freshWorld in
  fst r = Err (External "disk full") /\
  AddAccount.keyring (snd r) = ∅ /\
  exists s, AddAccount.ngsStore (snd r) = Ok s /\ AddAccount.Has s "A" = true.
Proof.
  cbn zeta.
  destruct (AddAccountMore.failed_add_and_the_store (env := Scenarios.keyFileFails)
              Scenarios.addAGenerate Examples.freshWorld _ (External "disk full")
              eq_refl) as [Hk _].
  split; [reflexivity|]. split; [exact Hk|].
  eexists. split; reflexivity.
Defined.

(** A key pair without a public key cannot be stored: [Run] answers the
    error and no report. *)
Lemma Run_error_is_StoreKeys_error_witness :
  let o := AddUser.Run (env := Scenarios.addUserEnv false true false)
             Scenarios.brokenKey ctx0 (∅, []) in
  AddUser.err o = Some (External "no key") /\ AddUser.status o = None.
Proof.
  cbn zeta.
  destruct (AddUserMore.Run_error_is_StoreKeys_error
              (env := Scenarios.addUserEnv false true false)
              Scenarios.brokenKey ctx0 (∅, [])) as (Herr & Hfail & _).
  split; [exact Herr|]. exact (proj1 (Hfail (External "no key") eq_refl)).
Defined.

(** The claim cannot be signed: no top-level error, an error in the
    report. *)
Lemma claim_failure_is_reported_witness :
  let o := AddUser.Run (env := Scenarios.addUserEnv true true false)
             Examples.addU ctx0 (∅, []) in
  AddUser.err o = None /\
  exists r, AddUser.status o = Some (store.AsStatus r) /\
            store.HasNoErrors r = false.
Proof.
  cbn zeta.
  destruct (AddUserMore.claim_failure_is_reported
              (env := Scenarios.addUserEnv true true false)
              Examples.addU ctx0 (∅, []) _ _ None (External "cannot sign")
              eq_refl eq_refl) as (Herr & r & Hst & _ & Hno).
  split; [exact Herr|]. exists r. by split.
Defined.

(** The seed of the user is not in the key ring: the claim is stored, the
    creds file is skipped. *)
Lemma creds_are_skipped_without_private_key_witness :
  let o := AddUser.Run (env := Scenarios.addUserEnv false false false)
             Examples.addU ctx0 (∅, []) in
  AddUser.world o = ({[ "U" := "signed claim" ]}, []) /\
  AddUser.credsFilePath (AddUser.params o) = "".
Proof.
  cbn zeta.
  destruct (AddUserMore.creds_are_skipped_without_private_key
              (env := Scenarios.addUserEnv false false false)
              Examples.addU ctx0 (∅, []) _ _ _ eq_refl eq_refl) as [_ Hskip].
  destruct (Hskip eq_refl) as (Hw & Hp & _).
  split; [exact Hw | by rewrite Hp].
Defined.

Lemma clean_report_ends_with_added_user_witness :
  exists r,
    AddUser.status (AddUser.Run (env := Scenarios.addUserEnv false true false)
                      Examples.addU ctx0 (∅, [])) = Some (store.AsStatus r) /\
    last (store.Details r) = Some (store.StOK (store.MsgAddedUser "U" "A")).
Proof.
  eexists {| store.Opt := false; store.Details := _ |}.
  split; [reflexivity|].
  apply (AddUserMore.clean_report_ends_with_added_user
           (env := Scenarios.addUserEnv false true false)
           Examples.addU ctx0 (∅, []) _ eq_refl eq_refl).
Defined.

Lemma creds_written_on_success_witness :
  let o := AddUser.Run (env := Scenarios.addUserEnv false true false)
             Examples.addU ctx0 (∅, []) in
  AddUser.err o = None /\
  AddUser.credsFilePath (AddUser.params o) = "A/U.creds" /\
  exists r, AddUser.status o = Some (store.AsStatus r) /\
            store.HasNoErrors r = true.
Proof.
  cbn zeta.
  destruct (AddUserMore.creds_written_on_success
              (env := Scenarios.addUserEnv false true false)
              Examples.addU ctx0 (∅, []) _ _ _ _ _ _
              eq_refl eq_refl eq_refl eq_refl eq_refl)
    as (Herr & Hpath & _ & r & Hst & _ & Hclean).
  split; [exact Herr|]. split; [exact Hpath|].
  exists r. split; [exact Hst|]. apply Hclean. by intros s [= <-].
Defined.




(** [create account] without a name and without arguments: the directory is
    [.], as the working directory is absolute, and the name is its base. *)
Lemma name_and_directory_witness :
  let r := CreateAccount.RunE (env := Scenarios.createEnv "/keys/a.nk" None)
             "" [] Examples.emptyDisk in
  exists p', fst r = Ok p' /\ CreateAccount.dir p' = "." /\ CreateAccount.name p' = ".".
Proof.
  cbn zeta. eexists. split; [reflexivity|].
  destruct (CreateAccountMore.name_and_directory
              (env := Scenarios.createEnv "/keys/a.nk" None)
              "" [] Examples.emptyDisk _ _ eq_refl) as (Hname & wd & Hwd & Hdir).
  injection Hwd as <-. split; [exact Hdir | exact Hname].
Defined.

Lemma Validate_and_the_name_witness :
  let v := AddUserValidate.Validate (env := Scenarios.validateEnv)
             (lib := Examples.library) in
  fst (v Scenarios.namelessUser (AddUserValidate.mkCmd true))
    = Err AddUserValidate.UserNameRequired /\
  AddUserValidate.SilenceUsage (snd (v Scenarios.namelessUser (AddUserValidate.mkCmd true)))
    = false /\
  snd (v Scenarios.starUser (AddUserValidate.mkCmd true)) = AddUserValidate.mkCmd true /\
  exists p', fst (v Scenarios.starUser (AddUserValidate.mkCmd true)) = Ok p' /\
             AddUserValidate.name p' = "brave_lion".
Proof.
  cbn zeta.
  destruct (ValidateFacts.Validate_and_the_name (env := Scenarios.validateEnv)
              (lib := Examples.library) Scenarios.namelessUser
              (AddUserValidate.mkCmd true)) as [Hempty _].
  destruct (ValidateFacts.Validate_and_the_name (env := Scenarios.validateEnv)
              (lib := Examples.library) Scenarios.starUser
              (AddUserValidate.mkCmd true)) as (_ & Hcmd & Hok).
  destruct (Hempty eq_refl) as [He Hs].
  split; [exact He|]. split; [exact Hs|].
  split.
  { destruct (Hcmd ltac:(discriminate)) as (_ & _ & Hsame).
    apply Hsame; intros c; reflexivity. }
  eexists. split; [reflexivity|].
  exact (proj1 (proj2 (Hok _ eq_refl))).
Defined.

(** Asked to delete, the user says yes: the maximum and the TTL are not
    asked for.  A user who declines changes nothing. *)
Lemma Edit_changes_what_is_answered_witness :
  let yes := ResponsePermsEdit.Edit (prompter := Scenarios.deleting)
               (lib := Examples.library) Scenarios.maxOnly true in
  let no := ResponsePermsEdit.Edit (prompter := Scenarios.declining)
              (lib := Examples.library) Scenarios.maxOnly true in
  ResponsePermsParams.rmResp (snd yes) = true /\
  ResponsePermsParams.respMax (snd yes) = 2 /\
  ResponsePermsParams.respTTL (snd yes) = "" /\
  snd no = Scenarios.maxOnly.
Proof.
  cbn zeta.
  destruct (PromptFacts.Edit_changes_what_is_answered (prompter := Scenarios.deleting)
              (lib := Examples.library) Scenarios.maxOnly true) as (_ & _ & Hrm).
  destruct (PromptFacts.Edit_changes_what_is_answered (prompter := Scenarios.declining)
              (lib := Examples.library) Scenarios.maxOnly true) as (Hno & _ & _).
  destruct (Hrm eq_refl) as [Hmax Httl].
  split; [reflexivity|]. split; [exact Hmax|]. split; [exact Httl|].
  exact (proj1 (Hno (or_introl eq_refl))).
Defined.

End MoreWitnesses.
